(** * The SageMaker Iris hyperparameter-tuning notebook ([lab.ipynb])

    The notebook is a straight-line Python script, cell after cell.  Its
    own code is modelled as Rocq functions; every call into pandas,
    scikit-learn, boto3 or the sagemaker SDK is an explicit [call] that a
    library handler answers with a value or with a raised exception. *)

From Stdlib Require Import ZArith List String Ascii Bool Lia Permutation.
From Stdlib Require Import Floats.PrimFloat Floats.SpecFloat Floats.FloatOps.
From Stdlib Require Import Uint63.
Import ListNotations.

Local Open Scope string_scope.
Local Open Scope list_scope.

(** ** Python values *)

(** Exceptions: the ones the notebook's own expressions can raise, and
    whatever a library raises.  [KeyError key] is the [KeyError(key)] of
    [df[key]].  The [KeyError] of [df[labels]] comes with one of two
    messages: [NotInIndex missing] stands for
    [KeyError("<missing> not in index")], raised when some of the labels
    are no columns, and [NoneInColumns labels] for
    [KeyError("None of [<labels>] are in the [columns]")], raised when
    none is. *)
Inductive exn : Type :=
| KeyError (key : string)
| NotInIndex (missing : list string)
| NoneInColumns (labels : list string)
| LibraryError (cls : string) (msg : string).

(** Python [float] is binary64. *)
Definition pyfloat := PrimFloat.float.

Definition float_of_nat (n : nat) : pyfloat :=
  PrimFloat.of_uint63 (Uint63.of_Z (Z.of_nat n)).

(** [math.ceil]: the least integer not below [x]; no result on an
    infinity or a NaN. *)
Definition py_ceil (x : pyfloat) : option Z :=
  match Prim2SF x with
  | S754_zero _ => Some 0%Z
  | S754_finite s m e =>
      let whole :=
        if (0 <=? e)%Z then (Z.pos m * 2 ^ e)%Z else (Z.pos m / 2 ^ (- e))%Z in
      let exact :=
        if (0 <=? e)%Z then true else (Z.pos m mod 2 ^ (- e) =? 0)%Z in
      Some (if s then (- whole)%Z else if exact then whole else (whole + 1)%Z)
  | S754_infinity _ => None
  | S754_nan => None
  end.

(** [math.floor]. *)
Definition py_floor (x : pyfloat) : option Z :=
  match Prim2SF x with
  | S754_zero _ => Some 0%Z
  | S754_finite s m e =>
      let whole :=
        if (0 <=? e)%Z then (Z.pos m * 2 ^ e)%Z else (Z.pos m / 2 ^ (- e))%Z in
      let exact :=
        if (0 <=? e)%Z then true else (Z.pos m mod 2 ^ (- e) =? 0)%Z in
      Some (if s then (if exact then - whole else - whole - 1)%Z else whole)
  | S754_infinity _ => None
  | S754_nan => None
  end.

(** [str(x)] for a value that is a string or [None], as [str.format]
    renders a [{}] field. *)
Definition py_str (o : option string) : string :=
  match o with
  | Some s => s
  | None => "None"
  end.

(** [s.startswith(p)] *)
Definition startswith (p s : string) : bool := String.prefix p s.

(** [s.endswith(p)] *)
Definition endswith (p s : string) : bool :=
  if (String.length p <=? String.length s)%nat
  then String.eqb
         (substring (String.length s - String.length p) (String.length p) s) p
  else false.

(** [os.path.join(a, b)] on POSIX (the notebook instance runs Linux). *)
Definition os_path_join (a b : string) : string :=
  if startswith "/" b then b
  else if String.eqb a "" || endswith "/" a then a ++ b
  else a ++ "/" ++ b.

(** JSON-like values: the dict and list literals of the configuration
    cells.  A dict keeps its items in insertion order. *)
#[warnings="-register-all"]
Inductive pyval : Type :=
| PNone
| PStr (s : string)
| PInt (z : Z)
| PList (items : list pyval)
| PDict (items : list (string * pyval)).

(** [d[key]] on a dict; [None] here stands for a missing key or a value
    that is no dict. *)
Definition get (key : string) (v : pyval) : option pyval :=
  match v with
  | PDict items =>
      match find (fun kv => String.eqb (fst kv) key) items with
      | Some kv => Some (snd kv)
      | None => None
      end
  | _ => None
  end.

Fixpoint get_path (path : list string) (v : pyval) : option pyval :=
  match path with
  | [] => Some v
  | key :: rest =>
      match get key v with
      | Some v' => get_path rest v'
      | None => None
      end
  end.

Definition keys (v : pyval) : list string :=
  match v with
  | PDict items => map fst items
  | _ => []
  end.

(** ** Data frames *)

(** A cell of the table: a number (a binary64 datum) or a text. *)
Inductive cell : Type :=
| Num (x : spec_float)
| Str (s : string).

Definition spec_float_eqb (x y : spec_float) : bool :=
  match x, y with
  | S754_zero s, S754_zero t => Bool.eqb s t
  | S754_infinity s, S754_infinity t => Bool.eqb s t
  | S754_nan, S754_nan => true
  | S754_finite s m e, S754_finite t n f =>
      Bool.eqb s t && Pos.eqb m n && Z.eqb e f
  | _, _ => false
  end.

(** Identity of two labels. *)
Definition cell_eqb (a b : cell) : bool :=
  match a, b with
  | Num x, Num y => spec_float_eqb x y
  | Str s, Str t => String.eqb s t
  | _, _ => false
  end.

(** Number of occurrences of a label. *)
Definition count (label : cell) (labels : list cell) : nat :=
  List.length (filter (cell_eqb label) labels).

(** A row carries its index label and its cells in column order. *)
Definition row : Type := Z * list cell.

Record DataFrame : Type := mkFrame {
  columns : list string;
  rows : list row
}.

Definition index (df : DataFrame) : list Z := map fst (rows df).

(** Position of the first column with the given label. *)
Fixpoint position (label : string) (labels : list string) : option nat :=
  match labels with
  | [] => None
  | l :: rest =>
      if String.eqb l label then Some 0%nat
      else match position label rest with
           | Some p => Some (S p)
           | None => None
           end
  end.

(** The cell of a row at a position; a missing cell reads as NaN. *)
Definition cell_at (p : nat) (cells : list cell) : cell :=
  nth p cells (Num S754_nan).

(** [df[label]]: the values of one column, [KeyError] when there is no
    such column. *)
Definition column (label : string) (df : DataFrame) : exn + list cell :=
  match position label (columns df) with
  | Some p => inr (map (fun r : row => cell_at p (snd r)) (rows df))
  | None => inl (KeyError label)
  end.

(** Positions of all the columns with the given label, the first
    column of the list being at [from]. *)
Fixpoint occurrences (label : string) (labels : list string) (from : nat)
  : list nat :=
  match labels with
  | [] => []
  | l :: rest =>
      if String.eqb l label then from :: occurrences label rest (S from)
      else occurrences label rest (S from)
  end.

(** The labels of a list, each once, in the order of first occurrence. *)
Fixpoint unique (labels : list string) : list string :=
  match labels with
  | [] => []
  | l :: rest => l :: filter (fun l' => negb (String.eqb l' l)) (unique rest)
  end.

(** No position was found. *)
Definition none_found (ps : list nat) : bool :=
  match ps with
  | [] => true
  | _ :: _ => false
  end.

(** [df[labels]]: for each listed label in turn, every column of [df]
    that bears it, with the same index.  When a listed label is no
    column the selection raises [KeyError], with one message if no
    listed label is a column and another, naming the missing labels, if
    some are. *)
Definition select (labels : list string) (df : DataFrame) : exn + DataFrame :=
  let found := map (fun l => (l, occurrences l (columns df) 0)) labels in
  let missing := map fst (filter (fun lp => none_found (snd lp)) found) in
  match missing with
  | [] =>
      inr {| columns := flat_map (fun lp => map (fun _ => fst lp) (snd lp)) found;
             rows := map (fun r : row =>
                            (fst r,
                             map (fun p => cell_at p (snd r))
                                 (flat_map snd found)))
                         (rows df) |}
  | _ :: _ =>
      if (List.length missing =? List.length labels)%nat
      then inl (NoneInColumns labels)
      else inl (NotInIndex (unique missing))
  end.

(** The position of a label that is a column; with distinct labels it
    is the one column that bears the label. *)
Definition place (label : string) (labels : list string) : nat :=
  match position label labels with
  | Some p => p
  | None => 0%nat
  end.

(** [["Species"] + [col for col in df.columns if col != "Species"]] *)
Definition species_first_labels (df : DataFrame) : list string :=
  ["Species"] ++ filter (fun col => negb (String.eqb col "Species")) (columns df).

(** [df.head()]: the first five rows. *)
Definition head (df : DataFrame) : DataFrame :=
  {| columns := columns df; rows := firstn 5 (rows df) |}.

(** What [to_csv] writes: an optional header record with the column
    labels, then one record per row, each optionally led by the index
    label.  A field is a column label, an index label or a cell. *)
Inductive field : Type :=
| FLabel (s : string)
| FIndex (i : Z)
| FCell (c : cell).

Definition to_csv_records (df : DataFrame) (index header : bool)
  : list (list field) :=
  (if header
   then [(if index then [FLabel ""] else []) ++ map FLabel (columns df)]
   else [])
  ++ map (fun r : row =>
            (if index then [FIndex (fst r)] else []) ++ map FCell (snd r))
         (rows df).

(** ** Storage configuration cell *)

(** An entry of [list_buckets()["Buckets"]]. *)
Record Bucket : Type := mkBucket {
  Name : string;
  CreationDate : string
}.

(** [next((bucket["Name"] for bucket in buckets
           if bucket["Name"].startswith("lab-notebook-")), None)] *)
Fixpoint select_bucket (buckets : list Bucket) : option string :=
  match buckets with
  | [] => None
  | bucket :: rest =>
      if startswith "lab-notebook-" (Name bucket) then Some (Name bucket)
      else select_bucket rest
  end.

(** ["{}/train".format(prefix)] and ["{}/validation".format(prefix)] *)
Definition train_s3_key (prefix : string) : string := prefix ++ "/train".
Definition validation_s3_key (prefix : string) : string := prefix ++ "/validation".

(** ["s3://{}/{}".format(bucket, key)] *)
Definition s3_uri (bucket : option string) (key : string) : string :=
  "s3://" ++ py_str bucket ++ "/" ++ key.

(** ["s3://{}/{}output".format(bucket, prefix)] *)
Definition s3_output_path (bucket : option string) (prefix : string) : string :=
  "s3://" ++ py_str bucket ++ "/" ++ prefix ++ "output".

(** ** Library calls and scripts *)

(** Objects the SDKs hand back (sessions, clients, resources) are opaque
    to the notebook. *)
Definition handle : Type := nat.

(** The library operations the notebook invokes, with their arguments. *)
Inductive call : Type :=
| Shell (cmd : string)
| Import (module : string)
| Boto3Session
| SessionRegionName (session : handle)
| SessionClient (session : handle) (service : string)
| SessionResource (session : handle) (service : string)
| Boto3Client (service : string)
| ListBuckets (client : handle)
| GetExecutionRole
| SagemakerSession (default_bucket : option string)
| ReadCsv (path sep : string)
| SetOption (name : string) (value : Z)
| Display (df : DataFrame)
| DisplayValue (value : pyval)
| TrainTestSplit (df : DataFrame) (test_size : pyfloat)
                 (random_state : option Z) (stratify : list cell)
| ToCsv (df : DataFrame) (path : string) (index header : bool)
| Print (text : string)
| PrintFrame (df : DataFrame)
| ImageUrisRetrieve (framework : string) (region : option string)
                    (version : string)
| S3Bucket (resource : handle) (name : option string)
| BucketObject (bucket : handle) (key : string)
| UploadFile (object : handle) (filename : string)
| CreateHyperParameterTuningJob (client : handle)
    (HyperParameterTuningJobName : string)
    (HyperParameterTuningJobConfig : pyval)
    (TrainingJobDefinition : pyval).

(** What each operation returns when it does not raise. *)
Definition ret (c : call) : Type :=
  match c with
  | Shell _ => Z
  | Import _ => unit
  | Boto3Session => handle
  | SessionRegionName _ => option string
  | SessionClient _ _ => handle
  | SessionResource _ _ => handle
  | Boto3Client _ => handle
  | ListBuckets _ => list Bucket
  | GetExecutionRole => string
  | SagemakerSession _ => handle
  | ReadCsv _ _ => DataFrame
  | SetOption _ _ => unit
  | Display _ => unit
  | DisplayValue _ => unit
  | TrainTestSplit _ _ _ _ => (DataFrame * DataFrame)%type
  | ToCsv _ _ _ _ => unit
  | Print _ => unit
  | PrintFrame _ => unit
  | ImageUrisRetrieve _ _ _ => string
  | S3Bucket _ _ => handle
  | BucketObject _ _ => handle
  | UploadFile _ _ => unit
  | CreateHyperParameterTuningJob _ _ _ _ => pyval
  end.

(** A script returns, raises, or performs a call and goes on with its
    answer.  [Attempt c k handler] is a call made inside [try ... except]:
    the script goes on with [k] when the call answers and with [handler]
    when it raises. *)
Inductive script (A : Type) : Type :=
| Ret (a : A)
| Raise (e : exn)
| Do (c : call) (k : ret c -> script A)
| Attempt (c : call) (k : ret c -> script A) (handler : exn -> script A).

Arguments Ret {A} a.
Arguments Raise {A} e.
Arguments Do {A} c k.
Arguments Attempt {A} c k handler.

Fixpoint bind {A B : Type} (m : script A) (f : A -> script B) : script B :=
  match m with
  | Ret a => f a
  | Raise e => Raise e
  | Do c k => Do c (fun x => bind (k x) f)
  | Attempt c k handler =>
      Attempt c (fun x => bind (k x) f) (fun e => bind (handler e) f)
  end.

Definition perform (c : call) : script (ret c) := Do c (fun x => Ret x).

Definition lift {A : Type} (r : exn + A) : script A :=
  match r with
  | inl e => Raise e
  | inr a => Ret a
  end.

Declare Scope script_scope.
Delimit Scope script_scope with script.
Notation "x <- m ;; k" := (bind m (fun x => k))
  (at level 61, m at next level, right associativity) : script_scope.
Notation "' p <- m ;; k" := (bind m (fun p => k))
  (at level 61, p pattern, m at next level, right associativity) : script_scope.
Notation "m ;; k" := (bind m (fun _ => k))
  (at level 61, right associativity) : script_scope.
Local Open Scope script_scope.

(** One entry of the execution log: the call made and the exception it
    raised, if any. *)
Record event : Type := mkEvent {
  made : call;
  raised : option exn
}.

Definition trace : Type := list event.

(** The outcome of a run: the result or the uncaught exception, the
    final state of the outside world, and the log of calls in order. *)
Record outcome (W A : Type) : Type := mkOutcome {
  result : exn + A;
  world_after : W;
  log : trace
}.

Arguments mkOutcome {W A} result world_after log.
Arguments result {W A} o.
Arguments world_after {W A} o.
Arguments log {W A} o.

(** The libraries and the services behind them: each call is answered,
    in the current state of the world, by a value or an exception. *)
Definition library (W : Type) : Type :=
  forall c : call, W -> (exn + ret c) * W.

Fixpoint run {W A : Type} (lib : library W) (s : script A) (w : W)
  : outcome W A :=
  match s with
  | Ret a => mkOutcome (inr a) w []
  | Raise e => mkOutcome (inl e) w []
  | Do c k =>
      match lib c w with
      | (inl e, w') => mkOutcome (inl e) w' [mkEvent c (Some e)]
      | (inr x, w') =>
          let o := run lib (k x) w' in
          mkOutcome (result o) (world_after o) (mkEvent c None :: log o)
      end
  | Attempt c k handler =>
      match lib c w with
      | (inl e, w') =>
          let o := run lib (handler e) w' in
          mkOutcome (result o) (world_after o) (mkEvent c (Some e) :: log o)
      | (inr x, w') =>
          let o := run lib (k x) w' in
          mkOutcome (result o) (world_after o) (mkEvent c None :: log o)
      end
  end.

(** The library functions under the names the notebook calls them by. *)
Definition shell (cmd : string) : script Z := perform (Shell cmd).
Definition import (module : string) : script unit := perform (Import module).
Definition boto3_Session : script handle := perform Boto3Session.
Definition region_name (session : handle) : script (option string) :=
  perform (SessionRegionName session).
Definition session_client (session : handle) (service : string) : script handle :=
  perform (SessionClient session service).
Definition session_resource (session : handle) (service : string) : script handle :=
  perform (SessionResource session service).
Definition boto3_client (service : string) : script handle :=
  perform (Boto3Client service).
Definition list_buckets (client : handle) : script (list Bucket) :=
  perform (ListBuckets client).
Definition get_execution_role : script string := perform GetExecutionRole.
Definition sagemaker_Session (default_bucket : option string) : script handle :=
  perform (SagemakerSession default_bucket).
Definition read_csv (path sep : string) : script DataFrame :=
  perform (ReadCsv path sep).
Definition set_option (name : string) (value : Z) : script unit :=
  perform (SetOption name value).
Definition display (df : DataFrame) : script unit := perform (Display df).
Definition display_value (value : pyval) : script unit :=
  perform (DisplayValue value).
Definition train_test_split (df : DataFrame) (test_size : pyfloat)
    (random_state : option Z) (stratify : list cell)
  : script (DataFrame * DataFrame) :=
  perform (TrainTestSplit df test_size random_state stratify).
Definition to_csv (df : DataFrame) (path : string) (index header : bool)
  : script unit :=
  perform (ToCsv df path index header).
Definition print (text : string) : script unit := perform (Print text).
Definition print_frame (df : DataFrame) : script unit := perform (PrintFrame df).
Definition image_uris_retrieve (framework : string) (region : option string)
    (version : string) : script string :=
  perform (ImageUrisRetrieve framework region version).
Definition s3_Bucket (resource : handle) (name : option string) : script handle :=
  perform (S3Bucket resource name).
Definition bucket_Object (bucket : handle) (key : string) : script handle :=
  perform (BucketObject bucket key).
Definition upload_file (object : handle) (filename : string) : script unit :=
  perform (UploadFile object filename).
Definition create_hyper_parameter_tuning_job (client : handle)
    (name : string) (config definition : pyval) : script pyval :=
  perform (CreateHyperParameterTuningJob client name config definition).

(** ** The cells of the notebook, in order *)

(** Cell [b4f537ce]: [!pip install ...].  A shell escape reports its
    exit status and does not raise on failure. *)
Definition install_dependencies : script unit :=
  shell "pip install boto3==1.35.4 sagemaker==2.229.0 scikit-learn==1.5.1 numpy==1.26.4 pandas==2.2.2" ;;
  Ret tt.

(** Cell [81245351]: imports, [region] and [smclient]. *)
Definition import_libraries : script (option string * handle) :=
  import "sagemaker" ;;
  import "boto3" ;;
  import "numpy" ;;
  import "pandas" ;;
  import "sklearn.model_selection" ;;
  import "os" ;;
  s1 <- boto3_Session ;;
  region <- region_name s1 ;;
  s2 <- boto3_Session ;;
  smclient <- session_client s2 "sagemaker" ;;
  Ret (region, smclient).

(** Cell [c9bc3711]: [role]. *)
Definition get_role : script string :=
  import "sagemaker" ;;
  role <- get_execution_role ;;
  print role ;;
  Ret role.

(** Cell [f017256d]: [prefix], [bucket] and [session]. *)
Definition prefix : string := "iris".

Definition configure_storage : script (option string * handle) :=
  client <- boto3_client "s3" ;;
  buckets <- list_buckets client ;;
  let bucket := select_bucket buckets in
  session <- sagemaker_Session bucket ;;
  Ret (bucket, session).

(** Cell [d62bdd04]: [data]. *)
Definition load_data : script DataFrame :=
  data <- read_csv "./iris.csv" "," ;;
  set_option "display.max_columns" 11 ;;
  set_option "display.max_rows" 5 ;;
  display data ;;
  Ret data.

(** Cell [82ebd73a], first part: the two calls of [train_test_split],
    with [test_size=0.3] and [test_size=1 / 3]. *)
Definition random_state : Z := 1729.

#[warnings="-inexact-float"]
Definition test_size_1 : pyfloat := 0.3%float.

Definition test_size_2 : pyfloat := (1 / 3)%float.

Record partitions : Type := mkPartitions {
  train_data : DataFrame;
  remaining_data : DataFrame;
  validation_data : DataFrame;
  test_data : DataFrame
}.

Definition split_data (data : DataFrame) : script partitions :=
  labels <- lift (column "Species" data) ;;
  '(train_data, remaining_data) <-
     train_test_split data test_size_1 (Some random_state) labels ;;
  remaining_labels <- lift (column "Species" remaining_data) ;;
  '(validation_data, test_data) <-
     train_test_split remaining_data test_size_2 (Some random_state)
                      remaining_labels ;;
  Ret (mkPartitions train_data remaining_data validation_data test_data).

(** Cell [82ebd73a], second part: one of the three
    [df[["Species"] + ...].to_csv(path, index=False, header=False)]. *)
Definition write_csv (df : DataFrame) (path : string) : script unit :=
  reordered <- lift (select (species_first_labels df) df) ;;
  to_csv reordered path false false.

Definition write_partitions (p : partitions) : script unit :=
  write_csv (train_data p) "train.csv" ;;
  write_csv (validation_data p) "validation.csv" ;;
  write_csv (test_data p) "test.csv".

(** Cell [82ebd73a], third part: the printed previews. *)
Definition newline : string := String (ascii_of_nat 10) "".

Definition show_partitions (p : partitions) : script unit :=
  print "Training Data:" ;;
  print_frame (head (train_data p)) ;;
  print (newline ++ "Validation Data:") ;;
  print_frame (head (validation_data p)) ;;
  print (newline ++ "Test Data:") ;;
  print_frame (head (test_data p)).

Definition prepare_data (data : DataFrame) : script partitions :=
  p <- split_data data ;;
  write_partitions p ;;
  show_partitions p ;;
  Ret p.

(** Cell [213d696d]: the S3 keys and URIs, and the two uploads
    [boto3.Session().resource("s3").Bucket(bucket).Object(key).upload_file(f)]. *)
Definition upload (bucket : option string) (key filename : string)
  : script unit :=
  session <- boto3_Session ;;
  resource <- session_resource session "s3" ;;
  b <- s3_Bucket resource bucket ;;
  object <- bucket_Object b (os_path_join key filename) ;;
  upload_file object filename.

Definition s3_input_train (bucket : option string) : string :=
  s3_uri bucket (train_s3_key prefix).

Definition s3_input_validation (bucket : option string) : string :=
  s3_uri bucket (validation_s3_key prefix).

Definition upload_datasets (region bucket : option string) : script string :=
  training_image <- image_uris_retrieve "xgboost" region "1.0-1" ;;
  upload bucket (train_s3_key prefix) "train.csv" ;;
  upload bucket (validation_s3_key prefix) "validation.csv" ;;
  Ret training_image.

(** Cell [a0e426c8]: [tuning_job_config]. *)
Definition tuning_job_config : pyval :=
  PDict [
    ("ParameterRanges", PDict [
      ("ContinuousParameterRanges", PList [
         PDict [("Name", PStr "eta"); ("MinValue", PStr "0.1"); ("MaxValue", PStr "0.5")];
         PDict [("Name", PStr "min_child_weight"); ("MinValue", PStr "0"); ("MaxValue", PStr "120")];
         PDict [("Name", PStr "subsample"); ("MinValue", PStr "0.5"); ("MaxValue", PStr "1")];
         PDict [("Name", PStr "colsample_bytree"); ("MinValue", PStr "0.5"); ("MaxValue", PStr "1")];
         PDict [("Name", PStr "gamma"); ("MinValue", PStr "0"); ("MaxValue", PStr "5")]
       ]);
      ("IntegerParameterRanges", PList [
         PDict [("Name", PStr "max_depth"); ("MinValue", PStr "1"); ("MaxValue", PStr "10")]
       ])
    ]);
    ("ResourceLimits", PDict [("MaxNumberOfTrainingJobs", PInt 9);
                              ("MaxParallelTrainingJobs", PInt 3)]);
    ("Strategy", PStr "Bayesian");
    ("HyperParameterTuningJobObjective", PDict [
      ("MetricName", PStr "validation:mlogloss");
      ("Type", PStr "Minimize")
    ]);
    ("RandomSeed", PInt 123)
  ].

(** Cell [29ee5d67]: [training_image] and [training_job_definition]. *)
Definition channel (name uri : string) : pyval :=
  PDict [
    ("ChannelName", PStr name);
    ("CompressionType", PStr "None");
    ("ContentType", PStr "csv");
    ("DataSource", PDict [
      ("S3DataSource", PDict [
        ("S3DataDistributionType", PStr "FullyReplicated");
        ("S3DataType", PStr "S3Prefix");
        ("S3Uri", PStr uri)
      ])
    ])
  ].

Definition training_job_definition (training_image role : string)
    (bucket : option string) : pyval :=
  PDict [
    ("AlgorithmSpecification", PDict [
      ("TrainingImage", PStr training_image);
      ("TrainingInputMode", PStr "File")
    ]);
    ("InputDataConfig", PList [
      channel "train" (s3_input_train bucket);
      channel "validation" (s3_input_validation bucket)
    ]);
    ("OutputDataConfig", PDict [("S3OutputPath", PStr (s3_output_path bucket prefix))]);
    ("ResourceConfig", PDict [
      ("InstanceCount", PInt 1);
      ("InstanceType", PStr "ml.m5.large");
      ("VolumeSizeInGB", PInt 5)
    ]);
    ("RoleArn", PStr role);
    ("StaticHyperParameters", PDict [
      ("objective", PStr "multi:softmax");
      ("num_class", PStr "3");
      ("eval_metric", PStr "mlogloss");
      ("num_round", PStr "100")
    ]);
    ("StoppingCondition", PDict [("MaxRuntimeInSeconds", PInt 300)])
  ].

Definition define_training_job (region : option string) (role : string)
    (bucket : option string) : script pyval :=
  training_image <- image_uris_retrieve "xgboost" region "1.0-1" ;;
  Ret (training_job_definition training_image role bucket).

(** Cell [3bae94d5]: the submission.  The call is the last expression
    of the cell, so the notebook displays the value it returns, as it
    displays [data] in cell [d62bdd04]. *)
Definition tuning_job_name : string := "iris-training-job".

Definition launch (smclient : handle) (config definition : pyval)
  : script pyval :=
  response <- create_hyper_parameter_tuning_job smclient tuning_job_name
                                               config definition ;;
  display_value response ;;
  Ret response.

(** The whole notebook, run from the first cell to the last. *)
Definition notebook : script pyval :=
  install_dependencies ;;
  '(region, smclient) <- import_libraries ;;
  role <- get_role ;;
  '(bucket, session) <- configure_storage ;;
  data <- load_data ;;
  p <- prepare_data data ;;
  training_image <- upload_datasets region bucket ;;
  let config := tuning_job_config in
  definition <- define_training_job region role bucket ;;
  launch smclient config definition.

(** ** Reading the log *)

(** The payload of a call that submits a tuning job: the three keyword
    arguments of [create_hyper_parameter_tuning_job]. *)
Record payload : Type := mkPayload {
  job_name : string;
  job_config : pyval;
  job_definition : pyval
}.

Definition submission (c : call) : option payload :=
  match c with
  | CreateHyperParameterTuningJob _ name config definition =>
      Some (mkPayload name config definition)
  | _ => None
  end.

(** The payloads submitted during a run, in order. *)
Fixpoint submissions (t : trace) : list payload :=
  match t with
  | [] => []
  | ev :: rest =>
      match submission (made ev) with
      | Some p => p :: submissions rest
      | None => submissions rest
      end
  end.

(** The files written by [to_csv] during a run, in order. *)
Fixpoint written (t : trace) : list (string * DataFrame * bool * bool) :=
  match t with
  | [] => []
  | ev :: rest =>
      match made ev with
      | ToCsv df path index header => (path, df, index, header) :: written rest
      | _ => written rest
      end
  end.

(** ** Properties of every call a script can make *)

(** [always P s]: [s] makes no call inside [try ... except] and,
    whatever the libraries answer, each call [s] makes satisfies [P]. *)
Fixpoint always {A : Type} (P : call -> Prop) (s : script A) : Prop :=
  match s with
  | Ret _ => True
  | Raise _ => True
  | Do c k => P c /\ forall x, always P (k x)
  | Attempt _ _ _ => False
  end.

(** [unguarded s]: no call of [s] is made inside [try ... except]. *)
Fixpoint unguarded {A : Type} (s : script A) : Prop :=
  match s with
  | Ret _ => True
  | Raise _ => True
  | Do c k => forall x, unguarded (k x)
  | Attempt _ _ _ => False
  end.

(** [submits n s]: [s] makes no call inside [try ... except]; on every
    path it makes at most [n] submissions, and exactly [n] on a path
    that returns. *)
Fixpoint submits {A : Type} (n : nat) (s : script A) {struct s} : Prop :=
  match s with
  | Ret _ => n = 0%nat
  | Raise _ => True
  | Do c k =>
      match submission c with
      | Some _ =>
          match n with
          | O => False
          | S n' => forall x, submits n' (k x)
          end
      | None => forall x, submits n (k x)
      end
  | Attempt _ _ _ => False
  end.

(** No call of the log raised. *)
Definition all_returned (t : trace) : Prop :=
  Forall (fun ev => raised ev = None) t.

(** ** What the notebook relies on from [train_test_split]

    The function belongs to scikit-learn (1.5.1, pinned by the first
    cell), not to the notebook.  Its documented behaviour for a float
    [test_size], no [train_size], and a [stratify] array is stated here as
    conditions on a library; the theorems on the split assume them. *)

(** The labels of a frame: its [Species] column. *)
Definition species (df : DataFrame) : list cell :=
  match column "Species" df with
  | inr labels => labels
  | inl _ => []
  end.

(** Size of the test side: [ceil(test_size * n_samples)]. *)
Definition n_test (test_size : pyfloat) (n_samples : nat) : option Z :=
  py_ceil (test_size * float_of_nat n_samples)%float.

(** A label's count in [part] is its proportional share of [whole]
    rounded down or up: it misses the exact share by less than [slack]
    rows. *)
Definition near_share (slack : Z) (label : cell) (part whole : list cell) : Prop :=
  (Z.abs (Z.of_nat (count label part) * Z.of_nat (List.length whole)
          - Z.of_nat (count label whole) * Z.of_nat (List.length part))
   < slack * Z.of_nat (List.length whole))%Z.

(** A label's count in [part] is exactly its proportional share. *)
Definition exact_share (label : cell) (part whole : list cell) : Prop :=
  (Z.of_nat (count label part) * Z.of_nat (List.length whole)
   = Z.of_nat (count label whole) * Z.of_nat (List.length part))%Z.

Section Contracts.
Context {W : Type} (lib : library W).

(** The two frames returned hold the rows of the input, each once,
    with the input's columns; the rows are dealt out so that each
    label's count on either side is its share rounded down or up. *)
Definition stratified_shuffle : Prop :=
  forall df test_size seed stratify w a b w',
    lib (TrainTestSplit df test_size seed stratify) w = (inr (a, b), w') ->
    columns a = columns df /\ columns b = columns df /\
    exists sa sb,
      List.length sa = List.length (rows a) /\
      List.length sb = List.length (rows b) /\
      Permutation (combine (rows df) stratify)
                  (combine (rows a) sa ++ combine (rows b) sb) /\
      forall label, In label stratify ->
        near_share 1 label sa stratify /\ near_share 1 label sb stratify.

(** The second frame has [ceil(test_size * n)] rows and the first one
    the other rows. *)
Definition sized_by_ceil : Prop :=
  forall df test_size seed stratify w a b w',
    lib (TrainTestSplit df test_size seed stratify) w = (inr (a, b), w') ->
    n_test test_size (List.length (rows df)) = Some (Z.of_nat (List.length (rows b))) /\
    (List.length (rows a) + List.length (rows b) = List.length (rows df))%nat.

(** With an integer [random_state] the answer depends on the arguments
    only, not on the state of the world. *)
Definition reproducible : Prop :=
  forall df test_size seed stratify w1 w2,
    fst (lib (TrainTestSplit df test_size (Some seed) stratify) w1)
    = fst (lib (TrainTestSplit df test_size (Some seed) stratify) w2).
End Contracts.

(** ** Reading the configuration *)

(** The value of a decimal numeral such as ["0.5"] or ["120"], as a
    fraction [numerator / denominator]; the tuning service receives the
    bounds of a range as such strings. *)
Definition digit (a : ascii) : option Z :=
  let n := nat_of_ascii a in
  if ((48 <=? n) && (n <=? 57))%nat then Some (Z.of_nat (n - 48)) else None.

Fixpoint decimal (s : string) (num : Z) (den : option Z) : option (Z * Z) :=
  match s with
  | EmptyString =>
      Some (num, match den with Some d => d | None => 1%Z end)
  | String a rest =>
      if Ascii.eqb a "."%char then
        match den with
        | None => decimal rest num (Some 1%Z)
        | Some _ => None
        end
      else
        match digit a with
        | Some d =>
            decimal rest (num * 10 + d)%Z
                    (match den with Some k => Some (k * 10)%Z | None => None end)
        | None => None
        end
  end.

Definition decimal_value (s : string) : option (Z * Z) :=
  if String.eqb s "" then None else decimal s 0%Z None.

(** A range entry whose [MinValue] does not exceed its [MaxValue]. *)
Definition range_ok (r : pyval) : bool :=
  match get "Name" r, get "MinValue" r, get "MaxValue" r with
  | Some (PStr _), Some (PStr lo), Some (PStr hi) =>
      match decimal_value lo, decimal_value hi with
      | Some (a, b), Some (c, d) => (a * d <=? c * b)%Z
      | _, _ => false
      end
  | _, _, _ => false
  end.

(** A list of [n] ranges, each in order. *)
Definition ranges_ok (n : nat) (v : option pyval) : bool :=
  match v with
  | Some (PList rs) => (List.length rs =? n)%nat && forallb range_ok rs
  | _ => false
  end.

(** ** A reference library

    A stand-in for the SDKs, used to exhibit concrete runs: it hands out
    fresh handles, answers from a fixed scenario, and splits frames by a
    simple stratified rule.  Chosen calls can be made to raise. *)
Module Reference.

Record scenario : Type := mkScenario {
  faults : call -> option exn;
  buckets : list Bucket;
  csv : DataFrame
}.

(** The labels of a list, each once. *)
Fixpoint distinct (labels : list cell) : list cell :=
  match labels with
  | [] => []
  | c :: rest =>
      if existsb (cell_eqb c) rest then distinct rest else c :: distinct rest
  end.

(** How many rows of each label go to the test side: the cumulative
    shares, rounded down, are differenced. *)
Fixpoint quotas (labels all : list cell) (k n seen : Z) : list (cell * nat) :=
  match labels with
  | [] => []
  | c :: rest =>
      let m := Z.of_nat (count c all) in
      (c, Z.to_nat ((seen + m) * k / n - seen * k / n))
        :: quotas rest all k n (seen + m)
  end.

(** Take one row out of the quota of a label, if any is left. *)
Fixpoint take (c : cell) (q : list (cell * nat)) : option (list (cell * nat)) :=
  match q with
  | [] => None
  | (c', k) :: rest =>
      if cell_eqb c c'
      then match k with
           | O => None
           | S k' => Some ((c', k') :: rest)
           end
      else match take c rest with
           | Some rest' => Some ((c', k) :: rest')
           | None => None
           end
  end.

(** Mark each labelled row: [true] for the test side. *)
Fixpoint assign (labelled : list (row * cell)) (q : list (cell * nat))
  : list (row * cell * bool) :=
  match labelled with
  | [] => []
  | rc :: rest =>
      match take (snd rc) q with
      | Some q' => (rc, true) :: assign rest q'
      | None => (rc, false) :: assign rest q
      end
  end.

Definition side (test : bool) (marked : list (row * cell * bool))
  : list (row * cell) :=
  map fst (filter (fun x => Bool.eqb (snd x) test) marked).

Definition near_shareb (label : cell) (part whole : list cell) : bool :=
  (Z.abs (Z.of_nat (count label part) * Z.of_nat (List.length whole)
          - Z.of_nat (count label whole) * Z.of_nat (List.length part))
   <? 1 * Z.of_nat (List.length whole))%Z.

Definition split (df : DataFrame) (test_size : pyfloat) (stratify : list cell)
  : exn + (DataFrame * DataFrame) :=
  let n := List.length (rows df) in
  match n_test test_size n with
  | None => inl (LibraryError "ValueError" "test_size")
  | Some k =>
      let marked :=
        assign (combine (rows df) stratify)
               (quotas (distinct stratify) stratify k (Z.of_nat n) 0) in
      let a := side false marked in
      let b := side true marked in
      if (List.length stratify =? n)%nat
         && (Z.of_nat (List.length b) =? k)%Z
         && forallb (fun c => near_shareb c (map snd a) stratify
                              && near_shareb c (map snd b) stratify)
                    stratify
      then inr ({| columns := columns df; rows := map fst a |},
                {| columns := columns df; rows := map fst b |})
      else inl (LibraryError "ValueError" "cannot stratify")
  end.

(** The answer to a call when no fault is injected; the world counts
    the handles handed out. *)
Definition answer (sc : scenario) (c : call) (w : nat) : (exn + ret c) * nat :=
  match c return (exn + ret c) * nat with
  | Shell _ => (inr 0%Z, w)
  | Import _ => (inr tt, w)
  | Boto3Session => (inr w, S w)
  | SessionRegionName _ => (inr (Some "us-west-2"), w)
  | SessionClient _ _ => (inr w, S w)
  | SessionResource _ _ => (inr w, S w)
  | Boto3Client _ => (inr w, S w)
  | ListBuckets _ => (inr (buckets sc), w)
  | GetExecutionRole => (inr "arn:aws:iam::123456789012:role/lab-role", w)
  | SagemakerSession _ => (inr w, S w)
  | ReadCsv _ _ => (inr (csv sc), w)
  | SetOption _ _ => (inr tt, w)
  | Display _ => (inr tt, w)
  | DisplayValue _ => (inr tt, w)
  | TrainTestSplit df test_size _ stratify => (split df test_size stratify, w)
  | ToCsv _ _ _ _ => (inr tt, w)
  | Print _ => (inr tt, w)
  | PrintFrame _ => (inr tt, w)
  | ImageUrisRetrieve framework _ version =>
      (inr ("registry/" ++ framework ++ ":" ++ version)%string, w)
  | S3Bucket _ _ => (inr w, S w)
  | BucketObject _ _ => (inr w, S w)
  | UploadFile _ _ => (inr tt, w)
  | CreateHyperParameterTuningJob _ name _ _ =>
      (inr (PDict [("HyperParameterTuningJobArn", PStr ("arn:job/" ++ name)%string)]), w)
  end.

Definition lib (sc : scenario) : library nat :=
  fun c w =>
    match faults sc c with
    | Some e => (inl e, w)
    | None => answer sc c w
    end.

(** Synthetic frames shaped like the Iris file: four numeric columns
    and the label, rows grouped by label and indexed from 0. *)
Definition measure (i : nat) : cell := Num (Prim2SF (float_of_nat i)).

Fixpoint block (label : string) (start size : nat) : list row :=
  match size with
  | O => []
  | S size' =>
      (Z.of_nat start,
       [measure start; measure 1; measure 2; measure 3; Str label])
        :: block label (S start) size'
  end.

Fixpoint blocks (groups : list (string * nat)) (start : nat) : list row :=
  match groups with
  | [] => []
  | (label, size) :: rest =>
      block label start size ++ blocks rest (start + size)
  end.

Definition frame (groups : list (string * nat)) : DataFrame :=
  {| columns := ["SepalLength"; "SepalWidth"; "PetalLength"; "PetalWidth";
                 "Species"];
     rows := blocks groups 0 |}.

(** 150 rows, 50 of each species. *)
Definition iris : DataFrame :=
  frame [("setosa", 50%nat); ("versicolor", 50%nat); ("virginica", 50%nat)].

(** 30 rows, 15 of each of two species. *)
Definition two_species : DataFrame :=
  frame [("setosa", 15%nat); ("versicolor", 15%nat)].

Definition no_faults (c : call) : option exn := None.

Definition lab_buckets : list Bucket :=
  [mkBucket "logs-archive" "2024-09-01";
   mkBucket "lab-notebook-1a2b3c" "2024-09-09";
   mkBucket "lab-notebook-zzz" "2024-09-10"].

(** The lab as set up: the bucket exists, the file is the Iris data,
    nothing fails. *)
Definition lab : scenario := mkScenario no_faults lab_buckets iris.



(** The same lab with the upload refused by S3. *)
Definition refused_upload (c : call) : option exn :=
  match c with
  | UploadFile _ _ => Some (LibraryError "S3UploadFailedError" "AccessDenied")
  | _ => None
  end.

Definition lab_refusing_upload : scenario :=
  mkScenario refused_upload lab_buckets iris.

(** The partitions a run of the split returned (empty ones if it
    raised). *)
Definition returned {W : Type} (o : outcome W partitions) : partitions :=
  match result o with
  | inr p => p
  | inl _ =>
      let empty := {| columns := []; rows := [] |} in
      mkPartitions empty empty empty empty
  end.

End Reference.


(** ** The payload the notebook builds *)

(** The payload is made of the job name, the configuration of cell
    [a0e426c8] as constructed, and the definition of cell [29ee5d67] for
    some image, role and bucket. *)
Definition notebook_payload (p : payload) : Prop :=
  job_name p = tuning_job_name /\
  job_config p = tuning_job_config /\
  exists image role bucket,
    job_definition p = training_job_definition image role bucket.


(** The resource limits of a configuration: at most 3 jobs in parallel,
    9 jobs in all, and the first limit within the second. *)
Definition limits_ok (config : pyval) : Prop :=
  exists parallel total,
    get_path ["ResourceLimits"; "MaxParallelTrainingJobs"] config
    = Some (PInt parallel) /\
    get_path ["ResourceLimits"; "MaxNumberOfTrainingJobs"] config
    = Some (PInt total) /\
    parallel = 3%Z /\ total = 9%Z /\ (parallel <= total)%Z.

(** The parts of a payload: five continuous and one integer range, each
    in order, the resource limits, the objective, and the static
    hyperparameters. *)
Definition payload_complete (p : payload) : Prop :=
  ranges_ok 5 (get_path ["ParameterRanges"; "ContinuousParameterRanges"]
                        (job_config p)) = true /\
  ranges_ok 1 (get_path ["ParameterRanges"; "IntegerParameterRanges"]
                        (job_config p)) = true /\
  get "ResourceLimits" (job_config p)
  = Some (PDict [("MaxNumberOfTrainingJobs", PInt 9);
                 ("MaxParallelTrainingJobs", PInt 3)]) /\
  get "HyperParameterTuningJobObjective" (job_config p)
  = Some (PDict [("MetricName", PStr "validation:mlogloss");
                 ("Type", PStr "Minimize")]) /\
  get "StaticHyperParameters" (job_definition p)
  = Some (PDict [("objective", PStr "multi:softmax");
                 ("num_class", PStr "3");
                 ("eval_metric", PStr "mlogloss");
                 ("num_round", PStr "100")]).

(** What the notebook needs of an answer to go on: a frame read has a
    Species column, and the two frames of a split have the columns of
    the frame split. *)
Definition good_answer (c : call) : ret c -> Prop :=
  match c with
  | ReadCsv _ _ => fun df => In "Species" (columns df)
  | TrainTestSplit df _ _ _ =>
      fun ab => columns (fst ab) = columns df /\ columns (snd ab) = columns df
  | _ => fun _ => True
  end.

(** A library whose [read_csv] finds a Species column in the file and
    whose [train_test_split] keeps the columns. *)
Definition keeps_species {W : Type} (lib : library W) : Prop :=
  forall (c : call) (w : W) (x : ret c) (w' : W),
    lib c w = (inr x, w') -> good_answer c x.

(** [completes s]: [s] makes no call inside [try ... except] and returns
    on every path along which the answers are good. *)
Fixpoint completes {A : Type} (s : script A) : Prop :=
  match s with
  | Ret _ => True
  | Raise _ => False
  | Do c k => forall x, good_answer c x -> completes (k x)
  | Attempt _ _ _ => False
  end.

(** The payload of a submission is built as the notebook builds it. *)
Definition submits_notebook_payload (c : call) : Prop :=
  match submission c with
  | Some p => notebook_payload p
  | None => True
  end.

(** ** The layout of the files written *)


(** [written] is [src] with the Species column moved to the front: its
    labels are Species and then the other labels of [src] in their
    order, its rows are those of [src] in their order, and under each
    label it holds the values [src] holds under that label. *)
Definition species_first_of (src written : DataFrame) : Prop :=
  columns written
  = "Species" :: filter (fun col => negb (String.eqb col "Species")) (columns src) /\
  index written = index src /\
  forall label, In label (columns written) ->
                column label written = column label src.

(** A file written by [to_csv]: path, frame, and the [index] and
    [header] flags. *)
Definition file : Type := (string * DataFrame * bool * bool)%type.

Definition file_path (f : file) : string := fst (fst (fst f)).

(** The file holds one record per row of the frame and nothing else (no
    header record), and each record holds the cells of its row and
    nothing else (no index field), the Species cell first. *)
Definition species_first_file (src : DataFrame) (f : file) : Prop :=
  let '(path, df, index, header) := f in
  index = false /\ header = false /\
  species_first_of src df /\
  to_csv_records df index header = map (fun r : row => map FCell (snd r)) (rows df) /\
  Forall (fun record => List.length record = List.length (columns df))
         (to_csv_records df index header).

(** The sources of the three files. *)
Definition csv_sources (p : partitions) : list (string * DataFrame) :=
  [("train.csv", train_data p);
   ("validation.csv", validation_data p);
   ("test.csv", test_data p)].

Definition writes_species_first (p : partitions) (c : call) : Prop :=
  match c with
  | ToCsv df path index header =>
      exists src, In (path, src) (csv_sources p) /\
                  species_first_file src (path, df, index, header)
  | _ => True
  end.

(** ** The partitions *)

(** No index label is on both lists. *)
Definition disjoint (l1 l2 : list Z) : Prop :=
  forall i, In i l1 -> ~ In i l2.

(** The three partitions share no row and together hold every row of
    the data once. *)
Definition partition_of (data : DataFrame) (p : partitions) : Prop :=
  Permutation (rows data)
              (rows (train_data p) ++ rows (validation_data p)
               ++ rows (test_data p)) /\
  disjoint (index (train_data p)) (index (validation_data p)) /\
  disjoint (index (train_data p)) (index (test_data p)) /\
  disjoint (index (validation_data p)) (index (test_data p)).

(** Every label of the data keeps its share in each partition up to
    rounding: within one row in the training partition, within two in
    the validation and the test partition. *)
Definition stratified_by_species (data : DataFrame) (p : partitions) : Prop :=
  forall label, In label (species data) ->
    near_share 1 label (species (train_data p)) (species data) /\
    near_share 2 label (species (validation_data p)) (species data) /\
    near_share 2 label (species (test_data p)) (species data).

(** Every label of the data keeps its exact share in each partition. *)
Definition exactly_stratified (data : DataFrame) (p : partitions) : Prop :=
  forall label, In label (species data) ->
    exact_share label (species (train_data p)) (species data) /\
    exact_share label (species (validation_data p)) (species data) /\
    exact_share label (species (test_data p)) (species data).

(** A test that the index labels of a list are distinct. *)
Fixpoint all_distinct (l : list Z) : bool :=
  match l with
  | [] => true
  | i :: rest => negb (existsb (Z.eqb i) rest) && all_distinct rest
  end.

(** ** What a call knows: the answers received before it *)

(** A call together with the value it returned. *)
Definition answered : Type := {c : call & ret c}.

Definition answer (c : call) (x : ret c) : answered := existT ret c x.

(** The moments of a run: each call made, with the answers received
    before it, the latest first. *)
Fixpoint moments {W A : Type} (lib : library W) (s : script A) (w : W)
    (h : list answered) : list (list answered * call) :=
  match s with
  | Ret _ => []
  | Raise _ => []
  | Do c k =>
      (h, c) ::
      match lib c w with
      | (inl _, _) => []
      | (inr x, w') => moments lib (k x) w' (answer c x :: h)
      end
  | Attempt c k handler =>
      (h, c) ::
      match lib c w with
      | (inl e, w') => moments lib (handler e) w' h
      | (inr x, w') => moments lib (k x) w' (answer c x :: h)
      end
  end.

(** [after P h s]: [s] makes no call inside [try ... except] and,
    whatever the libraries answer, each call [s] makes satisfies [P] of
    the answers received so far, [h] being those received before [s]. *)
Fixpoint after {A : Type} (P : list answered -> call -> Prop)
    (h : list answered) (s : script A) : Prop :=
  match s with
  | Ret _ => True
  | Raise _ => True
  | Do c k => P h c /\ forall x, after P (answer c x :: h) (k x)
  | Attempt _ _ _ => False
  end.

(** The values picked by [f] from a list of answers, in its order. *)
Fixpoint pick {T : Type} (f : forall c : call, ret c -> option T)
    (h : list answered) : list T :=
  match h with
  | [] => []
  | a :: rest =>
      match f (projT1 a) (projT2 a) with
      | Some t => t :: pick f rest
      | None => pick f rest
      end
  end.

(** The latest such value. *)
Definition latest {T : Type} (f : forall c : call, ret c -> option T)
    (h : list answered) : option T :=
  hd_error (pick f h).

(** The role answered by [get_execution_role()]. *)
Definition role_answer (c : call) : ret c -> option string :=
  match c with
  | GetExecutionRole => fun role => Some role
  | _ => fun _ => None
  end.

(** The region answered by [boto3.Session().region_name]. *)
Definition region_answer (c : call) : ret c -> option (option string) :=
  match c with
  | SessionRegionName _ => fun region => Some region
  | _ => fun _ => None
  end.

(** The arguments and the answer of [image_uris.retrieve]. *)
Definition image_answer (c : call)
  : ret c -> option (string * option string * string * string) :=
  match c with
  | ImageUrisRetrieve framework region version =>
      fun image => Some (framework, region, version, image)
  | _ => fun _ => None
  end.

(** The buckets answered by [list_buckets()]. *)
Definition buckets_answer (c : call) : ret c -> option (list Bucket) :=
  match c with
  | ListBuckets _ => fun listed => Some listed
  | _ => fun _ => None
  end.

(** The service and the client answered by [Session().client(service)]. *)
Definition client_answer (c : call) : ret c -> option (string * handle) :=
  match c with
  | SessionClient _ service => fun client => Some (service, client)
  | _ => fun _ => None
  end.




(** The path of a file that [to_csv] wrote. *)
Definition file_answer (c : call) : ret c -> option string :=
  match c with
  | ToCsv _ path _ _ => fun _ => Some path
  | _ => fun _ => None
  end.

(** ** The order of the operations *)

(** The name of the operation a call performs. *)
Definition operation (c : call) : string :=
  match c with
  | Shell _ => "!"
  | Import _ => "import"
  | Boto3Session => "boto3.Session"
  | SessionRegionName _ => "Session.region_name"
  | SessionClient _ _ => "Session.client"
  | SessionResource _ _ => "Session.resource"
  | Boto3Client _ => "boto3.client"
  | ListBuckets _ => "list_buckets"
  | GetExecutionRole => "get_execution_role"
  | SagemakerSession _ => "sagemaker.Session"
  | ReadCsv _ _ => "pd.read_csv"
  | SetOption _ _ => "pd.set_option"
  | Display _ => "display"
  | DisplayValue _ => "display"
  | TrainTestSplit _ _ _ _ => "train_test_split"
  | ToCsv _ _ _ _ => "to_csv"
  | Print _ => "print"
  | PrintFrame _ => "print"
  | ImageUrisRetrieve _ _ _ => "image_uris.retrieve"
  | S3Bucket _ _ => "Bucket"
  | BucketObject _ _ => "Object"
  | UploadFile _ _ => "upload_file"
  | CreateHyperParameterTuningJob _ _ _ _ => "create_hyper_parameter_tuning_job"
  end.


(** [scheduled ops s]: [s] makes no call inside [try ... except] and on
    every path it performs the operations [ops] in order, all of them
    unless it raises. *)
Fixpoint scheduled {A : Type} (ops : list string) (s : script A) {struct s}
  : Prop :=
  match s with
  | Ret _ => ops = []
  | Raise _ => True
  | Do c k =>
      match ops with
      | [] => False
      | op :: rest => operation c = op /\ forall x, scheduled rest (k x)
      end
  | Attempt _ _ _ => False
  end.

(** ** How the cells are wired together *)

(** The payload is built from earlier answers: the role from
    [get_execution_role], the image from the latest [image_uris.retrieve],
    asked for the region that [region_name] answered, the bucket from the
    answer of [list_buckets]; the call goes to the client that
    [Session().client("sagemaker")] answered. *)
Definition payload_wired (h : list answered) (c : call) : Prop :=
  match c with
  | CreateHyperParameterTuningJob client name config definition =>
      exists role region image listed,
        latest role_answer h = Some role /\
        latest region_answer h = Some region /\
        latest image_answer h = Some ("xgboost", region, "1.0-1", image) /\
        latest buckets_answer h = Some listed /\
        In ("sagemaker", client) (pick client_answer h) /\
        name = tuning_job_name /\
        definition = training_job_definition image role (select_bucket listed)
  | _ => True
  end.



(** The bucket given to [sagemaker.Session] and to [Bucket(...)] is the
    one selected from the answer of [list_buckets].  A file is uploaded
    to the object that [Session().resource("s3").Bucket(bucket).Object(key)]
    just answered, after [to_csv] wrote it, and only [train.csv] and
    [validation.csv] are, each under its own key. *)
Definition upload_wired (h : list answered) (c : call) : Prop :=
  match c with
  | SagemakerSession default_bucket =>
      exists listed,
        latest buckets_answer h = Some listed /\
        default_bucket = select_bucket listed
  | S3Bucket resource name =>
      exists listed,
        latest buckets_answer h = Some listed /\ name = select_bucket listed
  | UploadFile object filename =>
      exists session resource b key listed older,
        h = answer (BucketObject b key) object
              :: answer (S3Bucket resource (select_bucket listed)) b
              :: answer (SessionResource session "s3") resource
              :: answer Boto3Session session :: older /\
        latest buckets_answer h = Some listed /\
        In filename (pick file_answer h) /\
        ((filename = "train.csv" /\ key = "iris/train/train.csv") \/
         (filename = "validation.csv" /\ key = "iris/validation/validation.csv"))
  | _ => True
  end.

(** * Theorems *)

(** ** Runs of scripts in general *)

Lemma always_bind {A B : Type} (P : call -> Prop) (m : script A) (f : A -> script B) :
  always P m -> (forall a, always P (f a)) -> always P (bind m f).
Proof.
  induction m as [a | e | c k IH | c k IHk h IHh]; simpl; intros Hm Hf;
    auto; try contradiction.
  destruct Hm as [Hc Hk]. split; [exact Hc |]. intro x. apply IH; auto.
Qed.

Lemma always_lift {A : Type} (P : call -> Prop) (r : exn + A) : always P (lift r).
Proof. destruct r; exact I. Qed.

Lemma always_perform (P : call -> Prop) (c : call) : P c -> always P (perform c).
Proof. intro H. split; [exact H | intro x; exact I]. Qed.

Lemma always_log {W A : Type} (P : call -> Prop) (lib : library W) (s : script A) :
  always P s -> forall w, Forall (fun ev => P (made ev)) (log (run lib s w)).
Proof.
  induction s as [a | e | c k IH | c k IHk h IHh]; simpl; intros H w.
  - constructor.
  - constructor.
  - destruct H as [Hc Hk].
    destruct (lib c w) as [[e | x] w']; simpl.
    + constructor; [exact Hc | constructor].
    + constructor; [exact Hc | apply IH; apply Hk].
  - contradiction.
Qed.

Ltac walk :=
  repeat first
    [ exact I
    | apply always_lift
    | apply always_perform; reflexivity
    | apply always_bind
    | intro
    | match goal with
      | x : (_ * _)%type |- _ => destruct x
      end ].

Lemma always_unguarded {A : Type} (P : call -> Prop) (s : script A) :
  always P s -> unguarded s.
Proof.
  induction s as [a | e | c k IH | c k IHk h IHh]; simpl; intro H; auto.
  intro x. apply IH. apply H.
Qed.

(** In a script that makes no call inside [try ... except], a call that
    raises ends the run: its exception is the result of the run and no
    call follows it. *)
Lemma raise_ends_run {W A : Type} (lib : library W) (s : script A) :
  unguarded s ->
  forall w before ev after e,
    log (run lib s w) = before ++ ev :: after ->
    raised ev = Some e ->
    after = [] /\ result (run lib s w) = inl e.
Proof.
  induction s as [a | e0 | c k IH | c k IHk h IHh]; simpl;
    intros Hs w before ev after e Hlog Hr.
  - destruct before; discriminate.
  - destruct before; discriminate.
  - destruct (lib c w) as [[e1 | x] w']; simpl in *.
    + destruct before as [| b before].
      * injection Hlog as <- <-. simpl in Hr. injection Hr as <-. auto.
      * destruct before; discriminate.
    + destruct before as [| b before].
      * injection Hlog as <- _. simpl in Hr. discriminate.
      * injection Hlog as _ Hlog. eapply IH; eauto.
  - contradiction.
Qed.

(** A call made inside [try ... except] does not end the run when it
    raises: the handler goes on. *)
Lemma handler_goes_on :
  result (run (fun (c : call) (w : unit) =>
                 (@inl exn (ret c) (LibraryError "ClientError" "denied"), w))
              (Attempt GetExecutionRole (fun role => Ret role)
                       (fun _ => Ret "no role"))
              tt)
  = inr "no role".
Proof. reflexivity. Qed.

Lemma run_bind {W A B : Type} (lib : library W) (m : script A) (f : A -> script B) :
  forall w,
    run lib (bind m f) w =
    match result (run lib m w) with
    | inl e => mkOutcome (inl e) (world_after (run lib m w)) (log (run lib m w))
    | inr a =>
        let o := run lib (f a) (world_after (run lib m w)) in
        mkOutcome (result o) (world_after o) (log (run lib m w) ++ log o)
    end.
Proof.
  induction m as [a | e | c k IH | c k IHk h IHh]; simpl; intro w.
  - destruct (run lib (f a) w); reflexivity.
  - reflexivity.
  - destruct (lib c w) as [[e | x] w']; simpl.
    + reflexivity.
    + rewrite IH. destruct (result (run lib (k x) w')); reflexivity.
  - destruct (lib c w) as [[e | x] w']; simpl.
    + rewrite IHh. destruct (result (run lib (h e) w')); reflexivity.
    + rewrite IHk. destruct (result (run lib (k x) w')); reflexivity.
Qed.

Lemma submissions_all (P : payload -> Prop) (t : trace) :
  Forall (fun ev => match submission (made ev) with
                    | Some p => P p
                    | None => True
                    end) t ->
  Forall P (submissions t).
Proof.
  induction 1 as [| ev rest Hev _ IH]; simpl; [constructor |].
  destruct (submission (made ev)); [constructor |]; assumption.
Qed.

(** The submissions of a script that makes [n]: at most [n] in a run,
    and [n] in a run that returns. *)
Lemma submits_log {W A : Type} (lib : library W) (s : script A) :
  forall n w,
    submits n s ->
    (List.length (submissions (log (run lib s w))) <= n)%nat /\
    forall a, result (run lib s w) = inr a ->
              List.length (submissions (log (run lib s w))) = n.
Proof.
  induction s as [a | e | c k IH | c k IHk h IHh]; intros n w H;
    cbn [submits] in H; simpl.
  - subst n. auto.
  - split; [lia | discriminate].
  - destruct (lib c w) as [[e | x] w']; simpl;
      destruct (submission c) as [p |]; simpl.
    + destruct n as [| n']; [contradiction |]. split; [lia | discriminate].
    + split; [lia | discriminate].
    + destruct n as [| n']; [contradiction |].
      destruct (IH x n' w' (H x)) as [Hle Heq].
      split; [lia |]. intros a Ha. rewrite (Heq a Ha). reflexivity.
    + apply IH. apply H.
  - contradiction.
Qed.

(** A script that completes returns when no call raises and the answers
    are good. *)
Lemma completes_run {W A : Type} (lib : library W) (s : script A) :
  keeps_species lib ->
  forall w,
    completes s ->
    all_returned (log (run lib s w)) ->
    exists a, result (run lib s w) = inr a.
Proof.
  intro Hlib.
  induction s as [a | e | c k IH | c k IHk h IHh]; simpl; intros w H Hlog.
  - eauto.
  - contradiction.
  - destruct (lib c w) as [[e | x] w'] eqn:E; simpl in *.
    + inversion Hlog as [| ev rest Hev _]. discriminate.
    + inversion Hlog as [| ev rest _ Hrest]; subst.
      apply IH; [| exact Hrest]. apply H. exact (Hlib c w x w' E).
  - contradiction.
Qed.

(** ** Column selection *)

Lemma position_In label labels :
  In label labels -> exists p, position label labels = Some p.
Proof.
  induction labels as [| l rest IH]; simpl; [contradiction |].
  intros [-> | H].
  - rewrite String.eqb_refl. eauto.
  - destruct (String.eqb l label); [eauto |].
    destruct (IH H) as [p ->]. eauto.
Qed.

Lemma position_None label labels :
  ~ In label labels -> position label labels = None.
Proof.
  induction labels as [| l rest IH]; simpl; intro H; [reflexivity |].
  destruct (String.eqb l label) eqn:Hl.
  - apply String.eqb_eq in Hl. exfalso. apply H. left. exact Hl.
  - rewrite IH; [reflexivity |]. intro Hin. apply H. right. exact Hin.
Qed.

Lemma position_Some_In label labels p :
  position label labels = Some p -> In label labels.
Proof.
  revert p. induction labels as [| l rest IH]; simpl; intros p H; [discriminate |].
  destruct (String.eqb l label) eqn:Hl.
  - apply String.eqb_eq in Hl. left. exact Hl.
  - destruct (position label rest) as [q |]; [| discriminate].
    right. apply (IH q). reflexivity.
Qed.

Lemma position_nth label labels p :
  position label labels = Some p -> nth_error labels p = Some label.
Proof.
  revert p. induction labels as [| l rest IH]; simpl; intros p H; [discriminate |].
  destruct (String.eqb l label) eqn:Hl.
  - apply String.eqb_eq in Hl. injection H as <-. simpl. congruence.
  - destruct (position label rest) as [q |]; [| discriminate].
    injection H as <-. simpl. apply IH. reflexivity.
Qed.

Lemma occurrences_absent label labels from :
  ~ In label labels -> occurrences label labels from = [].
Proof.
  revert from. induction labels as [| l rest IH]; simpl; intros from H;
    [reflexivity |].
  destruct (String.eqb l label) eqn:Hl.
  - apply String.eqb_eq in Hl. exfalso. apply H. left. exact Hl.
  - apply IH. intro Hin. apply H. right. exact Hin.
Qed.

Lemma occurrences_present label labels from :
  In label labels -> none_found (occurrences label labels from) = false.
Proof.
  revert from. induction labels as [| l rest IH]; simpl; intros from H;
    [contradiction |].
  destruct (String.eqb l label) eqn:Hl; [reflexivity |].
  destruct H as [-> | H]; [rewrite String.eqb_refl in Hl; discriminate |].
  apply IH. exact H.
Qed.

Lemma occurrences_none label labels from :
  none_found (occurrences label labels from) = true -> ~ In label labels.
Proof.
  intros H Hin. rewrite (occurrences_present _ _ from Hin) in H. discriminate.
Qed.

Lemma occurrences_once label labels from p :
  NoDup labels -> position label labels = Some p ->
  occurrences label labels from = [(from + p)%nat].
Proof.
  intro Hnodup. revert from p.
  induction Hnodup as [| l rest Hl _ IH]; simpl; intros from p H; [discriminate |].
  destruct (String.eqb l label) eqn:E.
  - apply String.eqb_eq in E. subst l. injection H as <-.
    rewrite (occurrences_absent _ _ _ Hl), Nat.add_0_r. reflexivity.
  - destruct (position label rest) as [q |]; [| discriminate].
    injection H as <-. rewrite (IH (S from) q eq_refl).
    f_equal. lia.
Qed.

Lemma filter_nothing {T : Type} (f : T -> bool) (l : list T) :
  (forall x, In x l -> f x = false) -> filter f l = [].
Proof.
  induction l as [| x l IH]; simpl; intro H; [reflexivity |].
  rewrite (H x (or_introl eq_refl)). apply IH. intros y Hy. apply H. right. exact Hy.
Qed.

(** A selection of columns that are all there succeeds. *)
Lemma select_found labels df :
  (forall l, In l labels -> In l (columns df)) ->
  exists df', select labels df = inr df'.
Proof.
  intro H. unfold select.
  rewrite filter_nothing; [simpl; eauto |].
  intros lp Hlp. apply in_map_iff in Hlp. destruct Hlp as (l & <- & Hl).
  simpl. apply occurrences_present. apply H. exact Hl.
Qed.

(** A selection that succeeds was of columns that are all there, and it
    keeps the rows in their order, with their index labels. *)
Lemma select_shape labels df df' :
  select labels df = inr df' ->
  (forall l, In l labels -> In l (columns df)) /\
  index df' = index df.
Proof.
  unfold select.
  destruct (map fst (filter _ _)) as [| m ms] eqn:Hmissing.
  - intro H. injection H as <-. split.
    + intros l Hl.
      destruct (in_dec string_dec l (columns df)) as [Hin | Hout]; [exact Hin |].
      exfalso.
      assert (Hm : In l (map fst
                            (filter (fun lp => none_found (snd lp))
                                    (map (fun l0 => (l0, occurrences l0 (columns df) 0))
                                         labels)))).
      { apply in_map_iff. exists (l, occurrences l (columns df) 0). split; [reflexivity |].
        apply filter_In. split.
        - apply in_map_iff. exists l. auto.
        - simpl. rewrite (occurrences_absent _ _ _ Hout). reflexivity. }
      rewrite Hmissing in Hm. exact Hm.
    + unfold index. cbn [rows]. rewrite map_map. reflexivity.
  - destruct (_ =? _)%nat; discriminate.
Qed.

(** With distinct column labels, a selection of columns that are all
    there takes, for each listed label, the one column that bears it. *)
Lemma select_unique labels df :
  NoDup (columns df) ->
  (forall l, In l labels -> In l (columns df)) ->
  select labels df
  = inr {| columns := labels;
           rows := map (fun r : row =>
                          (fst r,
                           map (fun l => cell_at (place l (columns df)) (snd r))
                               labels))
                       (rows df) |}.
Proof.
  intros Hnodup H. unfold select.
  rewrite filter_nothing.
  2:{ intros lp Hlp. apply in_map_iff in Hlp. destruct Hlp as (l & <- & Hl).
      simpl. apply occurrences_present. apply H. exact Hl. }
  cbn [map].
  assert (Hfound : forall ls, (forall l, In l ls -> In l (columns df)) ->
            flat_map (fun lp : string * list nat => map (fun _ => fst lp) (snd lp))
                     (map (fun l => (l, occurrences l (columns df) 0)) ls) = ls /\
            flat_map snd (map (fun l => (l, occurrences l (columns df) 0)) ls)
            = map (fun l => place l (columns df)) ls).
  { induction ls as [| l ls IH]; intro Hls; [split; reflexivity |].
    destruct IH as [IH1 IH2]; [intros l' Hl'; apply Hls; right; exact Hl' |].
    destruct (position_In l (columns df) (Hls l (or_introl eq_refl))) as [p Hp].
    cbn [map flat_map fst snd].
    rewrite (occurrences_once _ _ 0 p Hnodup Hp), IH1, IH2.
    unfold place. rewrite Hp. split; reflexivity. }
  destruct (Hfound labels H) as [-> ->].
  f_equal. f_equal. apply map_ext. intro r. rewrite map_map. reflexivity.
Qed.

Lemma species_first_labels_in df :
  In "Species" (columns df) ->
  forall l, In l (species_first_labels df) -> In l (columns df).
Proof.
  intros Hs l [<- | Hl]; [exact Hs |].
  apply filter_In in Hl. apply Hl.
Qed.

(** With a Species column the reordering cannot fail. *)
Lemma reorder_total df e :
  In "Species" (columns df) ->
  select (species_first_labels df) df = inl e -> False.
Proof.
  intros Hin H.
  destruct (select_found _ df (species_first_labels_in df Hin)) as [df' Hdf'].
  congruence.
Qed.

Lemma column_total df e :
  In "Species" (columns df) -> column "Species" df = inl e -> False.
Proof.
  intros Hin. unfold column.
  destruct (position_In _ _ Hin) as [p ->]. discriminate.
Qed.

(** ** The reference library meets the conditions on [train_test_split] *)

Lemma combine_fst_snd {A B : Type} (l : list (A * B)) :
  combine (map fst l) (map snd l) = l.
Proof.
  induction l as [| [a b] l IH]; simpl; [reflexivity | rewrite IH; reflexivity].
Qed.

Lemma reference_assign_fst labelled q :
  map fst (Reference.assign labelled q) = labelled.
Proof.
  revert q. induction labelled as [| rc rest IH]; simpl; intro q; [reflexivity |].
  destruct (Reference.take (snd rc) q); simpl; rewrite IH; reflexivity.
Qed.

Lemma reference_side_perm marked :
  Permutation (map fst marked)
              (Reference.side false marked ++ Reference.side true marked).
Proof.
  unfold Reference.side.
  induction marked as [| [rc [|]] rest IH]; simpl.
  - constructor.
  - apply Permutation_cons_app. exact IH.
  - constructor. exact IH.
Qed.

Lemma reference_split_returns df test_size stratify a b :
  Reference.split df test_size stratify = inr (a, b) ->
  exists k la lb,
    n_test test_size (List.length (rows df)) = Some k /\
    List.length stratify = List.length (rows df) /\
    Z.of_nat (List.length lb) = k /\
    Permutation (combine (rows df) stratify) (la ++ lb) /\
    a = {| columns := columns df; rows := map fst la |} /\
    b = {| columns := columns df; rows := map fst lb |} /\
    forall label, In label stratify ->
                  near_share 1 label (map snd la) stratify /\
                  near_share 1 label (map snd lb) stratify.
Proof.
  unfold Reference.split.
  destruct (n_test test_size (List.length (rows df))) as [k |]; [| discriminate].
  set (marked := Reference.assign _ _).
  destruct (_ && _ && _) eqn:Hcheck; [| discriminate].
  apply andb_prop in Hcheck. destruct Hcheck as [Hcheck Hshares].
  apply andb_prop in Hcheck. destruct Hcheck as [Hlen Hk].
  apply Nat.eqb_eq in Hlen. apply Z.eqb_eq in Hk.
  intro H. injection H as <- <-.
  exists k, (Reference.side false marked), (Reference.side true marked).
  repeat split; auto.
  - rewrite <- (reference_assign_fst (combine (rows df) stratify)
                  (Reference.quotas (Reference.distinct stratify) stratify k
                                    (Z.of_nat (List.length (rows df))) 0)).
    apply reference_side_perm.
  - rewrite forallb_forall in Hshares. specialize (Hshares label H).
    apply andb_prop in Hshares. destruct Hshares as [Ha _].
    unfold Reference.near_shareb in Ha. apply Z.ltb_lt in Ha. exact Ha.
  - rewrite forallb_forall in Hshares. specialize (Hshares label H).
    apply andb_prop in Hshares. destruct Hshares as [_ Hb].
    unfold Reference.near_shareb in Hb. apply Z.ltb_lt in Hb. exact Hb.
Qed.

Lemma reference_lib_split sc df test_size seed stratify w a b w' :
  Reference.lib sc (TrainTestSplit df test_size seed stratify) w = (inr (a, b), w') ->
  Reference.split df test_size stratify = inr (a, b).
Proof.
  unfold Reference.lib.
  destruct (Reference.faults sc _); [discriminate |].
  simpl. intro H. injection H as H _. exact H.
Qed.

Lemma reference_stratified_shuffle sc : stratified_shuffle (Reference.lib sc).
Proof.
  intros df test_size seed stratify w a b w' H.
  apply reference_lib_split in H.
  destruct (reference_split_returns _ _ _ _ _ H)
    as (k & la & lb & _ & _ & _ & Hperm & -> & -> & Hshares).
  simpl. split; [reflexivity |]. split; [reflexivity |].
  exists (map snd la), (map snd lb).
  rewrite !length_map, !combine_fst_snd. auto.
Qed.

Lemma reference_sized_by_ceil sc : sized_by_ceil (Reference.lib sc).
Proof.
  intros df test_size seed stratify w a b w' H.
  apply reference_lib_split in H.
  destruct (reference_split_returns _ _ _ _ _ H)
    as (k & la & lb & Hk & Hlen & Hlb & Hperm & -> & -> & _).
  simpl. rewrite !length_map. split.
  - rewrite Hk, Hlb. reflexivity.
  - apply Permutation_length in Hperm.
    rewrite length_app, length_combine, Hlen, Nat.min_id in Hperm. lia.
Qed.

Lemma reference_reproducible sc : reproducible (Reference.lib sc).
Proof.
  intros df test_size seed stratify w1 w2. unfold Reference.lib.
  destruct (Reference.faults sc _); reflexivity.
Qed.

Lemma reference_keeps_species sc :
  In "Species" (columns (Reference.csv sc)) -> keeps_species (Reference.lib sc).
Proof.
  intros Hcsv c w x w' H. unfold Reference.lib in H.
  destruct (Reference.faults sc c); [discriminate |].
  destruct c; try exact I.
  - simpl in H. injection H as <- _. exact Hcsv.
  - simpl in H. injection H as H _. destruct x as [a b].
    destruct (reference_split_returns _ _ _ _ _ H)
      as (k & la & lb & _ & _ & _ & _ & -> & -> & _).
    split; reflexivity.
Qed.

Lemma lab_has_species : In "Species" (columns (Reference.csv Reference.lab)).
Proof. simpl. auto 10. Qed.


(** ** The calls of the notebook *)

Ltac open_notebook :=
  unfold notebook, install_dependencies, import_libraries, get_role,
    configure_storage, load_data, prepare_data, split_data, write_partitions,
    write_csv, show_partitions, upload_datasets, upload, define_training_job,
    launch;
  unfold shell, import, boto3_Session, region_name, session_client,
    session_resource, boto3_client, list_buckets, get_execution_role,
    sagemaker_Session, read_csv, set_option, display, display_value,
    train_test_split, to_csv, print, print_frame, image_uris_retrieve,
    s3_Bucket, bucket_Object, upload_file, create_hyper_parameter_tuning_job.

(** Walking down a script, call after call. *)
Ltac descend solve_call :=
  repeat first
    [ exact I
    | reflexivity
    | progress cbn [after scheduled always unguarded submits submission
                    bind lift perform]
    | match goal with
      | |- _ /\ (forall _, _) => split; [solve_call |]
      | |- forall _, _ => intro
      | |- context [lift ?r] =>
          let E := fresh "E" in destruct r eqn:E
      | |- context [let (_, _) := ?x in _] => destruct x
      end ].

(** The frame at hand has a Species column, the library keeping it. *)
Ltac species :=
  repeat match goal with
         | H : columns _ = _ |- _ => rewrite H
         end;
  assumption.

(** Walking down a script along good answers. *)
Ltac complete :=
  repeat first
    [ exact I
    | progress cbn [completes bind lift perform good_answer fst snd
                    train_data remaining_data validation_data test_data] in *
    | match goal with
      | |- forall _, _ => intro
      | H : _ /\ _ |- _ => destruct H
      | E : column "Species" ?df = inl ?e |- False =>
          apply (column_total df e); [species | exact E]
      | E : select (species_first_labels ?df) ?df = inl ?e |- False =>
          apply (reorder_total df e); [species | exact E]
      | |- context [lift ?r] =>
          let E := fresh "E" in destruct r eqn:E
      | |- context [let (_, _) := ?x in _] => destruct x
      end ].

Lemma notebook_payloads : always submits_notebook_payload notebook.
Proof.
  open_notebook.
  descend ltac:(first [ exact I
                      | split; [reflexivity |]; split; [reflexivity |];
                        do 3 eexists; reflexivity ]).
Qed.

Lemma notebook_unguarded : unguarded notebook.
Proof. exact (always_unguarded _ _ notebook_payloads). Qed.

Lemma notebook_submits : submits 1 notebook.
Proof. open_notebook. descend ltac:(idtac). Qed.

Lemma notebook_completes : completes notebook.
Proof. open_notebook. complete. Qed.

(** What every run of the notebook submits: at most one payload, built
    as the configuration cells build it; and exactly one, the run
    returning, when no call raises and the frames keep their Species
    column. *)
Lemma notebook_submission {W : Type} (P : payload -> Prop)
      (lib : library W) (w : W) :
  (forall p, notebook_payload p -> P p) ->
  Forall P (submissions (log (run lib notebook w))) /\
  (List.length (submissions (log (run lib notebook w))) <= 1)%nat /\
  (forall response,
      result (run lib notebook w) = inr response ->
      exists p, submissions (log (run lib notebook w)) = [p] /\ P p) /\
  (keeps_species lib ->
   all_returned (log (run lib notebook w)) ->
   exists p response,
     submissions (log (run lib notebook w)) = [p] /\ P p /\
     result (run lib notebook w) = inr response).
Proof.
  intro HP.
  assert (Hall : Forall P (submissions (log (run lib notebook w)))).
  { apply submissions_all.
    eapply Forall_impl; [| exact (always_log _ lib notebook notebook_payloads w)].
    intros ev Hev. unfold submits_notebook_payload in Hev.
    destruct (submission (made ev)); auto. }
  destruct (submits_log lib notebook 1 w notebook_submits) as [Hle Hone].
  assert (Hret : forall response,
             result (run lib notebook w) = inr response ->
             exists p, submissions (log (run lib notebook w)) = [p] /\ P p).
  { intros response Hr. specialize (Hone response Hr).
    destruct (submissions (log (run lib notebook w))) as [| p [| q rest]];
      try discriminate.
    exists p. split; [reflexivity |]. inversion Hall. assumption. }
  split; [exact Hall |]. split; [exact Hle |]. split; [exact Hret |].
  intros Hlib Hlog.
  destruct (completes_run lib notebook Hlib w notebook_completes Hlog)
    as [response Hr].
  destruct (Hret response Hr) as (p & Hp & HPp).
  exists p, response. auto.
Qed.

Lemma lab_all_returned :
  all_returned (log (run (Reference.lib Reference.lab) notebook 0%nat)).
Proof. vm_compute. repeat constructor. Qed.

(** ** The submitted payload *)

(** C3.  Every payload a run of the notebook submits to the create-job
    API holds, in one call, the five continuous and the one integer
    parameter range, each with MinValue at most MaxValue, the resource
    limits, the objective and the static hyperparameters.  And the
    payload is submitted: when no library call raises and the frames
    read and split keep their Species column, the run makes exactly one
    such submission and returns. *)
Theorem payload_has_all_parts :
  forall (W : Type) (lib : library W) (w : W),
    Forall payload_complete (submissions (log (run lib notebook w))) /\
    (keeps_species lib ->
     all_returned (log (run lib notebook w)) ->
     exists p response,
       submissions (log (run lib notebook w)) = [p] /\ payload_complete p /\
       result (run lib notebook w) = inr response).
Proof.
  intros W lib w.
  assert (HP : forall p, notebook_payload p -> payload_complete p).
  { intros [name config definition]
           (Hname & Hconfig & image & role & bucket & Hdef).
    simpl in *. subst. unfold payload_complete. simpl.
    repeat split; reflexivity. }
  destruct (notebook_submission payload_complete lib w HP) as (H1 & _ & _ & H4).
  split; assumption.
Qed.

Lemma payload_has_all_parts_witness :
  exists p response,
    submissions (log (run (Reference.lib Reference.lab) notebook 0%nat)) = [p] /\
    payload_complete p /\
    result (run (Reference.lib Reference.lab) notebook 0%nat) = inr response.
Proof.
  apply (proj2 (payload_has_all_parts nat (Reference.lib Reference.lab) 0%nat)).
  - exact (reference_keeps_species Reference.lab lab_has_species).
  - exact lab_all_returned.
Defined.

(** C4.  The configuration handed to the create-job call as
    HyperParameterTuningJobConfig is the value of [tuning_job_config] as
    the configuration cell built it, key for key and value for value.
    Between the two cells lies the definition cell, whose only call is
    [image_uris.retrieve], on three strings: nothing there is handed the
    configuration.  And it is handed over: when no library call raises
    and the frames keep their Species column, the run makes exactly one
    submission, with this configuration. *)
Theorem config_passed_verbatim :
  (forall region role bucket,
      always (fun c => exists framework r version,
                  c = ImageUrisRetrieve framework r version)
             (define_training_job region role bucket)) /\
  forall (W : Type) (lib : library W) (w : W),
    Forall (fun p => job_config p = tuning_job_config)
           (submissions (log (run lib notebook w))) /\
    (keeps_species lib ->
     all_returned (log (run lib notebook w)) ->
     exists p response,
       submissions (log (run lib notebook w)) = [p] /\
       (job_config p = tuning_job_config /\
        keys (job_config p)
        = ["ParameterRanges"; "ResourceLimits"; "Strategy";
           "HyperParameterTuningJobObjective"; "RandomSeed"]) /\
       result (run lib notebook w) = inr response).
Proof.
  split.
  - intros region role bucket.
    unfold define_training_job, image_uris_retrieve.
    apply always_bind; [| intro image; exact I].
    apply always_perform. eauto.
  - intros W lib w. split.
    + apply (notebook_submission (fun p => job_config p = tuning_job_config) lib w).
      intros p (_ & Hconfig & _). exact Hconfig.
    + apply (notebook_submission
               (fun p => job_config p = tuning_job_config /\
                         keys (job_config p)
                         = ["ParameterRanges"; "ResourceLimits"; "Strategy";
                            "HyperParameterTuningJobObjective"; "RandomSeed"])
               lib w).
      intros p (_ & Hconfig & _). rewrite Hconfig. split; reflexivity.
Qed.

Lemma config_passed_verbatim_witness :
  exists p response,
    submissions (log (run (Reference.lib Reference.lab) notebook 0%nat)) = [p] /\
    (job_config p = tuning_job_config /\
     keys (job_config p)
     = ["ParameterRanges"; "ResourceLimits"; "Strategy";
        "HyperParameterTuningJobObjective"; "RandomSeed"]) /\
    result (run (Reference.lib Reference.lab) notebook 0%nat) = inr response.
Proof.
  apply (proj2 (proj2 config_passed_verbatim nat (Reference.lib Reference.lab)
                      0%nat)).
  - exact (reference_keeps_species Reference.lab lab_has_species).
  - exact lab_all_returned.
Defined.

(** C5.  Every configuration a run of the notebook submits allows 3
    training jobs in parallel and 9 in all, and 3 is within 9.  And it
    is submitted: when no library call raises and the frames keep their
    Species column, the run makes exactly one submission, with these
    limits. *)
Theorem parallelism_limited :
  forall (W : Type) (lib : library W) (w : W),
    Forall (fun p => limits_ok (job_config p))
           (submissions (log (run lib notebook w))) /\
    (keeps_species lib ->
     all_returned (log (run lib notebook w)) ->
     exists p response,
       submissions (log (run lib notebook w)) = [p] /\
       limits_ok (job_config p) /\
       result (run lib notebook w) = inr response).
Proof.
  intros W lib w.
  assert (HP : forall p, notebook_payload p -> limits_ok (job_config p)).
  { intros p (_ & Hconfig & _). rewrite Hconfig.
    exists 3%Z, 9%Z. repeat split; try reflexivity. lia. }
  destruct (notebook_submission (fun p => limits_ok (job_config p)) lib w HP)
    as (H1 & _ & _ & H4).
  split; assumption.
Qed.

Lemma parallelism_limited_witness :
  exists p response,
    submissions (log (run (Reference.lib Reference.lab) notebook 0%nat)) = [p] /\
    limits_ok (job_config p) /\
    result (run (Reference.lib Reference.lab) notebook 0%nat) = inr response.
Proof.
  apply (proj2 (parallelism_limited nat (Reference.lib Reference.lab) 0%nat)).
  - exact (reference_keeps_species Reference.lab lab_has_species).
  - exact lab_all_returned.
Defined.




(** ** Exceptions *)

(** C7.  No call of the notebook is made inside [try ... except]; so
    when a library call of the notebook raises, the run ends there: no
    call follows, and the result of the run is that very exception,
    neither converted nor suppressed. *)
Theorem errors_propagate :
  unguarded notebook /\
  forall (W : Type) (lib : library W) (w : W) before ev after e,
    log (run lib notebook w) = before ++ ev :: after ->
    raised ev = Some e ->
    after = [] /\ result (run lib notebook w) = inl e.
Proof.
  split; [exact notebook_unguarded |].
  intros W lib w before ev after e Hlog Hraised.
  eapply raise_ends_run; eauto. exact notebook_unguarded.
Qed.

Lemma errors_propagate_witness :
  result (run (Reference.lib Reference.lab_refusing_upload) notebook 0%nat)
  = inl (LibraryError "S3UploadFailedError" "AccessDenied").
Proof.
  pose (o := run (Reference.lib Reference.lab_refusing_upload) notebook 0%nat).
  refine (proj2 (proj2 errors_propagate nat
                   (Reference.lib Reference.lab_refusing_upload) 0%nat
                   (removelast (log o))
                   (last (log o) (mkEvent GetExecutionRole None)) []
                   (LibraryError "S3UploadFailedError" "AccessDenied") _ _)).
  - vm_compute. reflexivity.
  - vm_compute. reflexivity.
Defined.

(** ** Bucket selection *)






(** ** The files written *)

Lemma cell_at_map {T : Type} (f : T -> cell) (l : list T) (p : nat) (x : T) :
  nth_error l p = Some x -> cell_at p (map f l) = f x.
Proof.
  intro H. unfold cell_at.
  apply nth_error_nth. apply map_nth_error. exact H.
Qed.

Lemma select_column labels df df' label :
  NoDup (columns df) ->
  select labels df = inr df' -> In label labels ->
  column label df' = column label df.
Proof.
  intros Hnodup Hsel Hin.
  destruct (select_shape _ _ _ Hsel) as [Hsub _].
  rewrite (select_unique labels df Hnodup Hsub) in Hsel. injection Hsel as <-.
  unfold column. cbn [columns rows].
  destruct (position_In label labels Hin) as [p' Hp'].
  destruct (position_In label (columns df) (Hsub label Hin)) as [p Hp].
  rewrite Hp', Hp. f_equal. rewrite map_map. apply map_ext. intro r. cbn [snd].
  rewrite (cell_at_map _ _ _ _ (position_nth _ _ _ Hp')).
  unfold place. rewrite Hp. reflexivity.
Qed.

Lemma select_record_lengths labels df df' :
  NoDup (columns df) ->
  select labels df = inr df' ->
  Forall (fun record : list field =>
            List.length record = List.length (columns df'))
         (to_csv_records df' false false).
Proof.
  intros Hnodup H.
  destruct (select_shape _ _ _ H) as (Hsub & _).
  rewrite (select_unique _ df Hnodup Hsub) in H. injection H as <-.
  unfold to_csv_records. cbn [app columns rows].
  apply Forall_forall. intros record Hrec. apply in_map_iff in Hrec.
  destruct Hrec as (r & <- & Hr). rewrite length_map.
  apply in_map_iff in Hr. destruct Hr as (r0 & <- & _). cbn [snd].
  apply length_map.
Qed.

Lemma select_species_first df df' path :
  NoDup (columns df) ->
  select (species_first_labels df) df = inr df' ->
  species_first_file df (path, df', false, false).
Proof.
  intros Hnodup H. unfold species_first_file.
  destruct (select_shape _ _ _ H) as (Hsub & Hindex).
  assert (Hcols : columns df' = species_first_labels df).
  { rewrite (select_unique _ df Hnodup Hsub) in H. injection H as <-. reflexivity. }
  split; [reflexivity |]. split; [reflexivity |]. split; [| split].
  - split; [exact Hcols |]. split; [exact Hindex |].
    intros label Hin. rewrite Hcols in Hin. eapply select_column; eauto.
  - reflexivity.
  - eapply select_record_lengths; eauto.
Qed.

Lemma always_bind_lift {A B : Type} (P : call -> Prop) (r : exn + A)
      (f : A -> script B) :
  (forall a, r = inr a -> always P (f a)) -> always P (bind (lift r) f).
Proof. destruct r as [e | a]; simpl; intro H; [exact I | apply H; reflexivity]. Qed.

Lemma write_csv_species_first p path src :
  In (path, src) (csv_sources p) ->
  NoDup (columns src) ->
  always (writes_species_first p) (write_csv src path).
Proof.
  intros Hin Hnodup. unfold write_csv. apply always_bind_lift. intros df' Hsel.
  apply always_perform. cbn [writes_species_first].
  exists src. split; [exact Hin |].
  apply select_species_first; assumption.
Qed.

Lemma write_partitions_species_first p :
  NoDup (columns (train_data p)) ->
  NoDup (columns (validation_data p)) ->
  NoDup (columns (test_data p)) ->
  always (writes_species_first p) (write_partitions p).
Proof.
  intros H1 H2 H3. unfold write_partitions.
  repeat (apply always_bind; [| intros _]);
    apply write_csv_species_first; simpl; auto.
Qed.

Lemma written_always {W A : Type} (P : call -> Prop) (Q : file -> Prop)
      (lib : library W) (s : script A) (w : W) :
  (forall df path index header,
      P (ToCsv df path index header) -> Q (path, df, index, header)) ->
  always P s -> Forall Q (written (log (run lib s w))).
Proof.
  intros HPQ Hs. pose proof (always_log P lib s Hs w) as H.
  induction H as [| ev rest Hev _ IH]; simpl; [constructor |].
  destruct (made ev); auto.
Qed.

Lemma written_app (t u : trace) : written (t ++ u) = written t ++ written u.
Proof.
  induction t as [| ev t IH]; simpl; [reflexivity |].
  destruct (made ev); simpl; rewrite IH; reflexivity.
Qed.

(** With Species columns in the three partitions, a run of the writing
    in which no call raises returns, having written the three files. *)
Lemma write_partitions_live {W : Type} (lib : library W) (w : W) (p : partitions) :
  In "Species" (columns (train_data p)) ->
  In "Species" (columns (validation_data p)) ->
  In "Species" (columns (test_data p)) ->
  all_returned (log (run lib (write_partitions p) w)) ->
  exists train val test,
    select (species_first_labels (train_data p)) (train_data p) = inr train /\
    select (species_first_labels (validation_data p)) (validation_data p)
    = inr val /\
    select (species_first_labels (test_data p)) (test_data p) = inr test /\
    written (log (run lib (write_partitions p) w))
    = [("train.csv", train, false, false);
       ("validation.csv", val, false, false);
       ("test.csv", test, false, false)] /\
    result (run lib (write_partitions p) w) = inr tt.
Proof.
  intros H1 H2 H3.
  destruct (select_found _ _ (species_first_labels_in _ H1)) as [train E1].
  destruct (select_found _ _ (species_first_labels_in _ H2)) as [val E2].
  destruct (select_found _ _ (species_first_labels_in _ H3)) as [test E3].
  unfold write_partitions, write_csv, to_csv, perform.
  rewrite E1, E2, E3. cbn [lift bind run].
  destruct (lib (ToCsv train "train.csv" false false) w) as [[e | []] w1];
    cbn [log result]; intro Hlog.
  { inversion Hlog as [| ev rest Hev _]. discriminate. }
  destruct (lib (ToCsv val "validation.csv" false false) w1) as [[e | []] w2];
    cbn [log result] in *.
  { inversion Hlog as [| ev rest _ Hrest]; subst.
    inversion Hrest as [| ev' rest' Hev' _]. discriminate. }
  destruct (lib (ToCsv test "test.csv" false false) w2) as [[e | []] w3];
    cbn [log result] in *.
  { inversion Hlog as [| ev rest _ Hrest]; subst.
    inversion Hrest as [| ev' rest' _ Hrest']; subst.
    inversion Hrest' as [| ev'' rest'' Hev'' _]. discriminate. }
  exists train, val, test. repeat split; reflexivity.
Qed.

(** C10.  The partitions having distinct column labels, as frames from
    [read_csv] have, each file written by the split cell is written
    with [index=False] and [header=False] from one of the three
    partitions with its Species column moved to the front: the file has
    one record per row, each made of the row's cells only, the Species
    cell first and the other cells in the order of their columns.  And
    the files are written: the partitions having a Species column, a
    run of the writing in which no call raises writes [train.csv],
    [validation.csv] and [test.csv], in this order, each from its own
    partition, and returns. *)
Theorem csv_species_first :
  forall (W : Type) (lib : library W) (w : W) (p : partitions),
    NoDup (columns (train_data p)) ->
    NoDup (columns (validation_data p)) ->
    NoDup (columns (test_data p)) ->
    Forall (fun f => exists src, In (file_path f, src) (csv_sources p) /\
                                 species_first_file src f)
           (written (log (run lib (write_partitions p) w))) /\
    (In "Species" (columns (train_data p)) ->
     In "Species" (columns (validation_data p)) ->
     In "Species" (columns (test_data p)) ->
     all_returned (log (run lib (write_partitions p) w)) ->
     exists train val test,
       written (log (run lib (write_partitions p) w))
       = [("train.csv", train, false, false);
          ("validation.csv", val, false, false);
          ("test.csv", test, false, false)] /\
       species_first_file (train_data p) ("train.csv", train, false, false) /\
       species_first_file (validation_data p)
                          ("validation.csv", val, false, false) /\
       species_first_file (test_data p) ("test.csv", test, false, false) /\
       result (run lib (write_partitions p) w) = inr tt).
Proof.
  intros W lib w p N1 N2 N3. split.
  - apply written_always with (P := writes_species_first p);
      [| apply write_partitions_species_first; assumption].
    intros df path index header H. exact H.
  - intros H1 H2 H3 Hlog.
    destruct (write_partitions_live lib w p H1 H2 H3 Hlog)
      as (train & val & test & E1 & E2 & E3 & Hwritten & Hresult).
    exists train, val, test.
    split; [exact Hwritten |].
    split; [apply select_species_first; assumption |].
    split; [apply select_species_first; assumption |].
    split; [apply select_species_first; assumption | exact Hresult].
Qed.

Lemma csv_species_first_witness :
  exists train val test,
    written (log (run (Reference.lib Reference.lab)
                      (write_partitions
                         (Reference.returned
                            (run (Reference.lib Reference.lab)
                                 (split_data Reference.two_species) 0%nat)))
                      0%nat))
    = [("train.csv", train, false, false);
       ("validation.csv", val, false, false);
       ("test.csv", test, false, false)].
Proof.
  destruct (csv_species_first nat (Reference.lib Reference.lab) 0%nat
              (Reference.returned
                 (run (Reference.lib Reference.lab)
                      (split_data Reference.two_species) 0%nat)))
    as [_ H].
  - vm_compute. repeat constructor; simpl; intuition discriminate.
  - vm_compute. repeat constructor; simpl; intuition discriminate.
  - vm_compute. repeat constructor; simpl; intuition discriminate.
  - destruct H as (train & val & test & Hwritten & _).
    + vm_compute. auto 10.
    + vm_compute. auto 10.
    + vm_compute. auto 10.
    + vm_compute. repeat constructor.
    + exists train, val, test. exact Hwritten.
Defined.

(** ** The split *)

(** A run of the split that returns went through both calls of
    [train_test_split], each on the Species column of the frame it
    splits. *)
Lemma split_data_returns {W : Type} (lib : library W) (w : W)
      (data : DataFrame) (p : partitions) :
  result (run lib (split_data data) w) = inr p ->
  exists w1 w2 w3,
    lib (TrainTestSplit data test_size_1 (Some random_state) (species data)) w
    = (inr (train_data p, remaining_data p), w1) /\
    lib (TrainTestSplit (remaining_data p) test_size_2 (Some random_state)
                        (species (remaining_data p))) w2
    = (inr (validation_data p, test_data p), w3) /\
    (exists labels, column "Species" data = inr labels) /\
    (exists labels, column "Species" (remaining_data p) = inr labels).
Proof.
  unfold split_data, species.
  destruct (column "Species" data) as [e | labels]; simpl; [discriminate |].
  destruct (lib (TrainTestSplit data test_size_1 (Some random_state) labels) w)
    as [[e | [train rest]] w1] eqn:H1; simpl; [discriminate |].
  destruct (column "Species" rest) as [e | labels'] eqn:Hc; simpl; [discriminate |].
  destruct (lib (TrainTestSplit rest test_size_2 (Some random_state) labels') w1)
    as [[e | [val test]] w3] eqn:H2; simpl; [discriminate |].
  intro H. injection H as <-. simpl.
  exists w1, w1, w3. rewrite Hc. repeat split; eauto.
Qed.

(** In binary64 the products [0.3 * 150] and [(1 / 3) * 45] are the
    integers 45 and 15: rounding them down or up gives the same sizes. *)
Lemma products_are_whole :
  py_floor (test_size_1 * float_of_nat 150)%float = Some 45%Z /\
  py_ceil (test_size_1 * float_of_nat 150)%float = Some 45%Z /\
  py_floor (test_size_2 * float_of_nat 45)%float = Some 15%Z /\
  py_ceil (test_size_2 * float_of_nat 45)%float = Some 15%Z.
Proof. vm_compute. repeat split. Qed.

Lemma n_test_150 : n_test test_size_1 150 = Some 45%Z.
Proof. vm_compute. reflexivity. Qed.

Lemma n_test_45 : n_test test_size_2 45 = Some 15%Z.
Proof. vm_compute. reflexivity. Qed.

Lemma split_lengths_150 {W : Type} (lib : library W) (w : W)
      (data : DataFrame) (p : partitions) :
  sized_by_ceil lib ->
  List.length (rows data) = 150%nat ->
  result (run lib (split_data data) w) = inr p ->
  List.length (rows (train_data p)) = 105%nat /\
  List.length (rows (validation_data p)) = 30%nat /\
  List.length (rows (test_data p)) = 15%nat.
Proof.
  intros Hsize Hlen Hrun.
  destruct (split_data_returns lib w data p Hrun) as (w1 & w2 & w3 & H1 & H2 & _).
  destruct (Hsize _ _ _ _ _ _ _ _ H1) as [Hn1 Hsum1].
  rewrite Hlen in Hn1, Hsum1.
  assert (Hrest : List.length (rows (remaining_data p)) = 45%nat).
  { rewrite n_test_150 in Hn1. injection Hn1 as Hn1. lia. }
  destruct (Hsize _ _ _ _ _ _ _ _ H2) as [Hn2 Hsum2].
  rewrite Hrest in Hn2, Hsum2.
  assert (Htest : List.length (rows (test_data p)) = 15%nat).
  { rewrite n_test_45 in Hn2. injection Hn2 as Hn2. lia. }
  lia.
Qed.

(** C2.  With [train_test_split] sizing its second frame as
    [ceil(test_size * n)], a returning split of a 150-row frame gives 105
    training rows, 30 validation rows and 15 test rows: 70%, 20% and 10%
    of the rows. *)
Theorem split_row_counts :
  forall (W : Type) (lib : library W) (w : W) (data : DataFrame) (p : partitions),
    sized_by_ceil lib ->
    List.length (rows data) = 150%nat ->
    result (run lib (split_data data) w) = inr p ->
    List.length (rows (train_data p)) = 105%nat /\
    List.length (rows (validation_data p)) = 30%nat /\
    List.length (rows (test_data p)) = 15%nat /\
    (100 * List.length (rows (train_data p)) = 70 * List.length (rows data))%nat /\
    (100 * List.length (rows (validation_data p)) = 20 * List.length (rows data))%nat /\
    (100 * List.length (rows (test_data p)) = 10 * List.length (rows data))%nat.
Proof.
  intros W lib w data p Hsize Hlen Hrun.
  destruct (split_lengths_150 lib w data p Hsize Hlen Hrun) as (Ht & Hv & He).
  lia.
Qed.

(** C9.  Both calls of [train_test_split] are made with
    [random_state=1729]; so, with a library whose seeded splits depend on
    their arguments only, two runs of the split on the same frame end
    alike, whatever the state of the world: the same exception or the
    same partitions. *)
Theorem split_deterministic :
  forall (W : Type) (lib : library W) (data : DataFrame),
    reproducible lib ->
    always (fun c => match c with
                     | TrainTestSplit _ _ seed _ => seed = Some 1729%Z
                     | _ => True
                     end) (split_data data) /\
    forall w1 w2 : W,
      result (run lib (split_data data) w1) = result (run lib (split_data data) w2).
Proof.
  intros W lib data Hrep. split.
  - unfold split_data, train_test_split. walk.
  - intros w1 w2. unfold split_data.
    destruct (column "Species" data) as [e | labels]; simpl; [reflexivity |].
    pose proof (Hrep data test_size_1 random_state labels w1 w2) as H1.
    destruct (lib (TrainTestSplit data test_size_1 (Some random_state) labels) w1)
      as [[e1 | [train1 rest1]] u1];
      destruct (lib (TrainTestSplit data test_size_1 (Some random_state) labels) w2)
      as [[e2 | [train2 rest2]] u2];
      simpl in H1; try discriminate.
    + injection H1 as <-. reflexivity.
    + injection H1 as <- <-.
      destruct (column "Species" rest1) as [e | labels']; simpl; [reflexivity |].
      pose proof (Hrep rest1 test_size_2 random_state labels' u1 u2) as H2.
      destruct (lib (TrainTestSplit rest1 test_size_2 (Some random_state) labels') u1)
        as [[e1 | [val1 test1]] v1];
        destruct (lib (TrainTestSplit rest1 test_size_2 (Some random_state) labels') u2)
        as [[e2 | [val2 test2]] v2];
        simpl in H2; try discriminate.
      * injection H2 as <-. reflexivity.
      * injection H2 as <- <-. reflexivity.
Qed.

Lemma split_row_counts_witness :
  exists p,
    result (run (Reference.lib Reference.lab) (split_data Reference.iris) 0%nat)
    = inr p /\
    List.length (rows (train_data p)) = 105%nat /\
    List.length (rows (validation_data p)) = 30%nat /\
    List.length (rows (test_data p)) = 15%nat.
Proof.
  pose (p := Reference.returned
                (run (Reference.lib Reference.lab) (split_data Reference.iris) 0%nat)).
  assert (Hrun : result (run (Reference.lib Reference.lab)
                             (split_data Reference.iris) 0%nat) = inr p)
    by (vm_compute; reflexivity).
  assert (Hlen : List.length (rows Reference.iris) = 150%nat)
    by (vm_compute; reflexivity).
  destruct (split_row_counts nat (Reference.lib Reference.lab) 0%nat
                             Reference.iris p
                             (reference_sized_by_ceil Reference.lab) Hlen Hrun)
    as (H1 & H2 & H3 & _).
  exists p. auto.
Defined.

Lemma split_deterministic_witness :
  result (run (Reference.lib Reference.lab) (split_data Reference.iris) 0%nat)
  = result (run (Reference.lib Reference.lab) (split_data Reference.iris) 7%nat).
Proof.
  exact (proj2 (split_deterministic nat (Reference.lib Reference.lab)
                  Reference.iris (reference_reproducible Reference.lab))
               0%nat 7%nat).
Defined.


(** ** Labels and counts *)

Lemma spec_float_eqb_eq x y : spec_float_eqb x y = true -> x = y.
Proof.
  destruct x as [s | s | | s m e], y as [t | t | | t n f]; simpl;
    try discriminate; intro H.
  - apply Bool.eqb_prop in H. congruence.
  - apply Bool.eqb_prop in H. congruence.
  - reflexivity.
  - apply andb_prop in H. destruct H as [H He].
    apply andb_prop in H. destruct H as [Hs Hm].
    apply Bool.eqb_prop in Hs. apply Pos.eqb_eq in Hm. apply Z.eqb_eq in He.
    congruence.
Qed.

Lemma cell_eqb_eq a b : cell_eqb a b = true -> a = b.
Proof.
  destruct a as [x | s], b as [y | t]; simpl; try discriminate; intro H.
  - apply spec_float_eqb_eq in H. congruence.
  - apply String.eqb_eq in H. congruence.
Qed.

Lemma count_app label l1 l2 :
  count label (l1 ++ l2) = (count label l1 + count label l2)%nat.
Proof. unfold count. rewrite filter_app, length_app. reflexivity. Qed.

Lemma count_perm label l1 l2 :
  Permutation l1 l2 -> count label l1 = count label l2.
Proof.
  unfold count. induction 1 as [| x l l' _ IH | x y l | l l' l'' _ IH1 _ IH2];
    simpl.
  - reflexivity.
  - destruct (cell_eqb label x); simpl; congruence.
  - destruct (cell_eqb label x), (cell_eqb label y); reflexivity.
  - congruence.
Qed.

Lemma count_pos_In label l : (0 < count label l)%nat -> In label l.
Proof.
  unfold count. induction l as [| x l IH]; simpl; [lia |].
  destruct (cell_eqb label x) eqn:Hx.
  - intros _. left. symmetry. apply cell_eqb_eq. exact Hx.
  - intro H. right. apply IH. exact H.
Qed.

Lemma combine_graph {A B : Type} (f : A -> B) (l : list A) :
  combine l (map f l) = map (fun x => (x, f x)) l.
Proof.
  induction l as [| x l IH]; simpl; [reflexivity | rewrite IH; reflexivity].
Qed.

Lemma graph_combine {A B : Type} (f : A -> B) (la : list A) (sa : list B) :
  List.length sa = List.length la ->
  Forall (fun q => snd q = f (fst q)) (combine la sa) ->
  sa = map f la.
Proof.
  revert sa. induction la as [| x la IH]; intros [| y sa] Hlen H;
    simpl in *; try discriminate.
  - reflexivity.
  - inversion H as [| q qs Hq Hqs]; subst. simpl in Hq. subst y.
    f_equal. apply IH; [lia | exact Hqs].
Qed.

(** One stratified split of a frame on its own Species column. *)
Lemma stratified_stage {W : Type} (lib : library W) df test_size seed w a b w' :
  stratified_shuffle lib ->
  (exists labels, column "Species" df = inr labels) ->
  lib (TrainTestSplit df test_size seed (species df)) w = (inr (a, b), w') ->
  Permutation (rows df) (rows a ++ rows b) /\
  Permutation (species df) (species a ++ species b) /\
  forall label, In label (species df) ->
                near_share 1 label (species a) (species df) /\
                near_share 1 label (species b) (species df).
Proof.
  intros Hlib [labels Hcol] Hcall.
  destruct (Hlib _ _ _ _ _ _ _ _ Hcall)
    as (Ha & Hb & sa & sb & Hla & Hlb & Hperm & Hshares).
  unfold column in Hcol.
  destruct (position "Species" (columns df)) as [p |] eqn:Hpos; [| discriminate].
  set (f := fun r : row => cell_at p (snd r)).
  assert (Hdf : species df = map f (rows df)).
  { unfold species, column. rewrite Hpos. reflexivity. }
  assert (Hsa' : species a = map f (rows a)).
  { unfold species, column. rewrite Ha, Hpos. reflexivity. }
  assert (Hsb' : species b = map f (rows b)).
  { unfold species, column. rewrite Hb, Hpos. reflexivity. }
  rewrite Hdf in Hperm. rewrite combine_graph in Hperm.
  assert (Hgraph : Forall (fun q => snd q = f (fst q))
                          (combine (rows a) sa ++ combine (rows b) sb)).
  { eapply Permutation_Forall; [exact Hperm |].
    apply Forall_forall. intros q Hq. apply in_map_iff in Hq.
    destruct Hq as (r & <- & _). reflexivity. }
  apply Forall_app in Hgraph. destruct Hgraph as [Hga Hgb].
  apply graph_combine in Hga; [| exact Hla].
  apply graph_combine in Hgb; [| exact Hlb].
  subst sa sb. rewrite !combine_graph, <- map_app in Hperm.
  assert (Hrows : Permutation (rows df) (rows a ++ rows b)).
  { apply (Permutation_map fst) in Hperm.
    rewrite !map_map in Hperm. simpl in Hperm. rewrite !map_id in Hperm.
    exact Hperm. }
  split; [exact Hrows |]. split.
  - rewrite Hdf, Hsa', Hsb', <- map_app. apply Permutation_map. exact Hrows.
  - rewrite Hsa', Hsb'. exact Hshares.
Qed.

(** Two stages of rounding add up to less than two rows. *)
Lemma two_stage_share (n nr nv d r v : Z) :
  (0 < n)%Z -> (0 <= nv <= nr)%Z -> (nr <= n)%Z ->
  (0 <= d)%Z -> (0 <= v <= r)%Z ->
  (Z.abs (r * n - d * nr) < 1 * n)%Z ->
  (r = 0 \/ Z.abs (v * nr - r * nv) < 1 * nr)%Z ->
  (Z.abs (v * n - d * nv) < 2 * n)%Z.
Proof.
  intros Hn Hnv Hnr Hd Hv H1 H2.
  apply Z.abs_lt in H1. apply Z.abs_lt.
  destruct H2 as [-> | H2].
  - assert (v = 0)%Z by lia. subst v. nia.
  - apply Z.abs_lt in H2.
    assert (Hid : ((v * n - d * nv) * nr
                   = n * (v * nr - r * nv) + nv * (r * n - d * nr))%Z) by ring.
    assert (0 < nr)%Z by lia.
    split; nia.
Qed.

Lemma NoDup_app_disjoint (l1 l2 : list Z) : NoDup (l1 ++ l2) -> disjoint l1 l2.
Proof.
  induction l1 as [| x l1 IH]; simpl; intros H i Hi; [contradiction |].
  inversion H as [| y ys Hnotin Hrest]; subst.
  destruct Hi as [-> | Hi].
  - intro Hi2. apply Hnotin. apply in_or_app. right. exact Hi2.
  - apply IH; assumption.
Qed.

Lemma disjoint_app_r (l1 l2 l3 : list Z) :
  disjoint l1 (l2 ++ l3) -> disjoint l1 l2 /\ disjoint l1 l3.
Proof.
  intro H. split; intros i Hi Hi'; apply (H i Hi); apply in_or_app; auto.
Qed.

Lemma stratified_two_stages (whole rest part other : list cell) (label : cell) :
  In label whole ->
  (exists first, Permutation whole (first ++ rest)) ->
  Permutation rest (part ++ other) ->
  near_share 1 label rest whole ->
  (In label rest -> near_share 1 label part rest) ->
  near_share 2 label part whole.
Proof.
  intros Hin [first Hwhole] Hrest H1 H2. unfold near_share in *.
  pose proof (Permutation_length Hwhole) as Ln.
  pose proof (Permutation_length Hrest) as Lr.
  pose proof (count_perm label _ _ Hwhole) as Cn.
  pose proof (count_perm label _ _ Hrest) as Cr.
  rewrite length_app in Ln, Lr. rewrite count_app in Cn, Cr.
  assert (Hpos : (0 < List.length whole)%nat).
  { destruct whole; [contradiction | simpl; lia]. }
  apply two_stage_share with (nr := Z.of_nat (List.length rest))
                             (r := Z.of_nat (count label rest));
    try lia.
  destruct (Nat.eq_dec (count label rest) 0) as [Hz | Hnz].
  - left. lia.
  - right. apply H2. apply count_pos_In. lia.
Qed.

(** C1 (as amended).  With a library whose [train_test_split] deals the
    rows of its input into two frames, each label's count on either side
    being its share rounded down or up, every returning split of a frame
    with distinct index labels gives three partitions that share no row,
    together hold each row of the frame once, and keep every label's
    share up to rounding: within one row in the training partition and
    within two rows in the validation and test partitions. *)
Theorem split_partitions_stratified :
  forall (W : Type) (lib : library W) (w : W) (data : DataFrame) (p : partitions),
    stratified_shuffle lib ->
    NoDup (index data) ->
    result (run lib (split_data data) w) = inr p ->
    partition_of data p /\ stratified_by_species data p.
Proof.
  intros W lib w data p Hlib Hnodup Hrun.
  destruct (split_data_returns lib w data p Hrun)
    as (w1 & w2 & w3 & H1 & H2 & Hc1 & Hc2).
  destruct (stratified_stage lib _ _ _ _ _ _ _ Hlib Hc1 H1) as (R1 & S1 & Sh1).
  destruct (stratified_stage lib _ _ _ _ _ _ _ Hlib Hc2 H2) as (R2 & S2 & Sh2).
  assert (Hrows : Permutation (rows data)
                    (rows (train_data p) ++ rows (validation_data p)
                     ++ rows (test_data p))).
  { eapply Permutation_trans; [exact R1 |].
    apply Permutation_app_head. exact R2. }
  split.
  - split; [exact Hrows |].
    assert (Hindex : NoDup (index (train_data p) ++ index (validation_data p)
                            ++ index (test_data p))).
    { unfold index. rewrite <- !map_app.
      eapply Permutation_NoDup; [| exact Hnodup].
      apply Permutation_map. exact Hrows. }
    pose proof (NoDup_app_disjoint _ _ Hindex) as Htrain.
    apply disjoint_app_r in Htrain. destruct Htrain as [Htv Hte].
    apply NoDup_app_remove_l in Hindex.
    split; [exact Htv |]. split; [exact Hte |].
    apply NoDup_app_disjoint. exact Hindex.
  - intros label Hin. destruct (Sh1 label Hin) as [Htrain Hrest].
    split; [exact Htrain |]. split.
    + apply stratified_two_stages
        with (rest := species (remaining_data p)) (other := species (test_data p));
        auto.
      * exists (species (train_data p)). exact S1.
      * intro Hin'. apply (Sh2 label Hin').
    + apply stratified_two_stages
        with (rest := species (remaining_data p))
             (other := species (validation_data p));
        auto.
      * exists (species (train_data p)). exact S1.
      * eapply Permutation_trans; [exact S2 | apply Permutation_app_comm].
      * intro Hin'. apply (Sh2 label Hin').
Qed.

Lemma all_distinct_NoDup (l : list Z) : all_distinct l = true -> NoDup l.
Proof.
  induction l as [| i rest IH]; simpl; intro H; [constructor |].
  apply andb_prop in H. destruct H as [Hi Hrest].
  constructor; [| apply IH; exact Hrest].
  intro Hin. apply negb_true_iff in Hi.
  assert (existsb (Z.eqb i) rest = true); [| congruence].
  apply existsb_exists. exists i. split; [exact Hin | apply Z.eqb_refl].
Qed.

Lemma split_partitions_stratified_witness :
  partition_of Reference.two_species
    (Reference.returned
       (run (Reference.lib Reference.lab) (split_data Reference.two_species) 0%nat)) /\
  stratified_by_species Reference.two_species
    (Reference.returned
       (run (Reference.lib Reference.lab) (split_data Reference.two_species) 0%nat)).
Proof.
  apply (split_partitions_stratified nat (Reference.lib Reference.lab) 0%nat).
  - apply reference_stratified_shuffle.
  - apply all_distinct_NoDup. vm_compute. reflexivity.
  - vm_compute. reflexivity.
Defined.

(** C1, the claim as stated fails.  Take 30 rows, 15 of each of two
    species.  [ceil(0.3 * 30)] is 9, so the training partition has 21
    rows: no 21 rows hold the two species in equal numbers.  The
    reference library, which meets both conditions on
    [train_test_split], returns 11 and 10. *)
Lemma exact_strata_refuted :
  ~ (forall (W : Type) (lib : library W) (w : W) (data : DataFrame)
            (p : partitions),
        stratified_shuffle lib -> sized_by_ceil lib ->
        NoDup (index data) ->
        result (run lib (split_data data) w) = inr p ->
        partition_of data p /\ exactly_stratified data p).
Proof.
  intro H.
  destruct (H nat (Reference.lib Reference.lab) 0%nat Reference.two_species
              (Reference.returned
                 (run (Reference.lib Reference.lab)
                      (split_data Reference.two_species) 0%nat))
              (reference_stratified_shuffle Reference.lab)
              (reference_sized_by_ceil Reference.lab)) as [_ Hexact].
  - apply all_distinct_NoDup. vm_compute. reflexivity.
  - vm_compute. reflexivity.
  - destruct (Hexact (Str "setosa")) as [Htrain _].
    + vm_compute. left. reflexivity.
    + vm_compute in Htrain. discriminate.
Qed.

Lemma species_length a df :
  columns a = columns df ->
  (exists labels, column "Species" df = inr labels) ->
  List.length (species a) = List.length (rows a).
Proof.
  intros Hcols [labels Hcol]. unfold species, column in *.
  rewrite Hcols.
  destruct (position "Species" (columns df)); [| discriminate].
  apply length_map.
Qed.

(** On data like the Iris file, 150 rows with 50 of each label, the
    rounding leaves no slack: each label has exactly 35 training rows,
    10 validation rows and 5 test rows. *)
Lemma iris_strata_exact :
  forall (W : Type) (lib : library W) (w : W) (data : DataFrame) (p : partitions),
    stratified_shuffle lib -> sized_by_ceil lib ->
    List.length (rows data) = 150%nat ->
    (forall label, In label (species data) -> count label (species data) = 50%nat) ->
    result (run lib (split_data data) w) = inr p ->
    forall label, In label (species data) ->
      count label (species (train_data p)) = 35%nat /\
      count label (species (validation_data p)) = 10%nat /\
      count label (species (test_data p)) = 5%nat.
Proof.
  intros W lib w data p Hlib Hsize Hlen Hfifty Hrun label Hin.
  destruct (split_lengths_150 lib w data p Hsize Hlen Hrun) as (Nt & Nv & Ne).
  destruct (split_data_returns lib w data p Hrun)
    as (w1 & w2 & w3 & H1 & H2 & Hc1 & Hc2).
  destruct (stratified_stage lib _ _ _ _ _ _ _ Hlib Hc1 H1) as (R1 & S1 & Sh1).
  destruct (stratified_stage lib _ _ _ _ _ _ _ Hlib Hc2 H2) as (R2 & S2 & Sh2).
  destruct (Hlib _ _ _ _ _ _ _ _ H1) as (Ca1 & Cb1 & _).
  destruct (Hlib _ _ _ _ _ _ _ _ H2) as (Ca2 & Cb2 & _).
  pose proof (species_length data data eq_refl Hc1) as Ld.
  pose proof (species_length _ _ Ca1 Hc1) as Lt.
  pose proof (species_length _ _ Cb1 Hc1) as Lr.
  pose proof (species_length _ _ Ca2 Hc2) as Lv.
  pose proof (species_length _ _ Cb2 Hc2) as Le.
  pose proof (Permutation_length R2) as Lrows. rewrite length_app in Lrows.
  pose proof (count_perm label _ _ S1) as C1. rewrite count_app in C1.
  pose proof (count_perm label _ _ S2) as C2. rewrite count_app in C2.
  specialize (Hfifty label Hin).
  destruct (Sh1 label Hin) as [Ht _]. unfold near_share in Ht.
  rewrite Ld, Lt, Hlen, Nt, Hfifty in Ht. apply Z.abs_lt in Ht.
  assert (Tc : count label (species (train_data p)) = 35%nat) by lia.
  assert (Rc : count label (species (remaining_data p)) = 15%nat) by lia.
  destruct (Sh2 label) as [Hv _]; [apply count_pos_In; lia |].
  unfold near_share in Hv. rewrite Lr, Lv, Lrows, Nv, Ne, Rc in Hv.
  apply Z.abs_lt in Hv. lia.
Qed.



(** * Further properties of the notebook *)

(** ** The moments of a run *)

Lemma moments_calls {W A : Type} (lib : library W) (s : script A) :
  forall w h, map snd (moments lib s w h) = map made (log (run lib s w)).
Proof.
  induction s as [a | e | c k IH | c k IHk hd IHh]; simpl; intros w h;
    try reflexivity.
  - destruct (lib c w) as [[e | x] w']; simpl; [reflexivity |].
    rewrite IH. reflexivity.
  - destruct (lib c w) as [[e | x] w']; simpl.
    + rewrite IHh. reflexivity.
    + rewrite IHk. reflexivity.
Qed.

Lemma after_moments {W A : Type} (P : list answered -> call -> Prop)
      (lib : library W) (s : script A) :
  forall w h, after P h s ->
              Forall (fun m => P (fst m) (snd m)) (moments lib s w h).
Proof.
  induction s as [a | e | c k IH | c k IHk hd IHh]; simpl; intros w h H.
  - constructor.
  - constructor.
  - destruct H as [Hc Hk]. constructor; [exact Hc |].
    destruct (lib c w) as [[e | x] w']; [constructor |].
    apply IH. apply Hk.
  - contradiction.
Qed.







Lemma notebook_payload_wired : after payload_wired [] notebook.
Proof.
  open_notebook.
  descend ltac:(first [exact I
                      | do 4 eexists; repeat split; cbn; auto 10]).
Qed.

(** The submitted definition carries the role that
    [get_execution_role] answered, the image that the latest
    [image_uris.retrieve] answered for the region of the session, and
    the bucket selected from the answer of [list_buckets]; the
    submission goes to the SageMaker client of the import cell. *)
Theorem payload_built_from_answers :
  forall (W : Type) (lib : library W) (w : W),
    Forall (fun m => payload_wired (fst m) (snd m))
           (moments lib notebook w []).
Proof.
  intros W lib w. apply after_moments. exact notebook_payload_wired.
Qed.





Ltac wire_upload :=
  first
    [ exact I
    | match goal with
      | |- upload_wired _ (UploadFile _ _) =>
          cbn; do 6 eexists; split; [reflexivity |];
          split; [reflexivity |];
          split; [cbn; auto 10 |];
          first [ left; split; reflexivity | right; split; reflexivity ]
      | |- upload_wired _ _ =>
          cbn; eexists; split; reflexivity
      end ].

Lemma notebook_upload_wired : after upload_wired [] notebook.
Proof.
  open_notebook.
  descend ltac:(wire_upload).
Qed.

(** The bucket handed to [sagemaker.Session] and to [Bucket(...)] is the
    one selected from the answer of [list_buckets].  Only [train.csv]
    and [validation.csv] are uploaded, never [test.csv]; each is
    uploaded after [to_csv] has written it, to the object with key
    [iris/train/train.csv] or [iris/validation/validation.csv] of that
    bucket. *)
Theorem uploads_follow_writes :
  forall (W : Type) (lib : library W) (w : W),
    Forall (fun m => upload_wired (fst m) (snd m))
           (moments lib notebook w []).
Proof.
  intros W lib w. apply after_moments. exact notebook_upload_wired.
Qed.

(** ** Where the objects and the output go *)

Lemma string_app_assoc (a b c : string) :
  ((a ++ b) ++ c)%string = (a ++ (b ++ c))%string.
Proof.
  induction a as [| x a IH]; simpl; [reflexivity | rewrite IH; reflexivity].
Qed.

Lemma prefix_app (a b c : string) :
  String.prefix (a ++ b) (a ++ c) = String.prefix b c.
Proof.
  induction a as [| x a IH]; simpl; [reflexivity |].
  destruct (ascii_dec x x) as [_ | H]; [exact IH | congruence].
Qed.

(** Whatever the bucket, each uploaded object lies directly under the
    S3Uri of the channel of its name in the training job definition:
    the [S3Prefix] data source of the channel covers it. *)
Theorem objects_under_channel_uris :
  forall (image role : string) (bucket : option string),
    exists train_uri validation_uri,
      get "InputDataConfig" (training_job_definition image role bucket)
      = Some (PList [channel "train" train_uri;
                     channel "validation" validation_uri]) /\
      s3_uri bucket (os_path_join (train_s3_key prefix) "train.csv")
      = (train_uri ++ "/train.csv")%string /\
      s3_uri bucket (os_path_join (validation_s3_key prefix) "validation.csv")
      = (validation_uri ++ "/validation.csv")%string.
Proof.
  intros image role bucket.
  exists (s3_input_train bucket), (s3_input_validation bucket).
  split; [reflexivity |].
  unfold s3_input_train, s3_input_validation, s3_uri.
  change (os_path_join (train_s3_key prefix) "train.csv")
    with ("iris/train" ++ "/train.csv")%string.
  change (os_path_join (validation_s3_key prefix) "validation.csv")
    with ("iris/validation" ++ "/validation.csv")%string.
  change (train_s3_key prefix) with "iris/train".
  change (validation_s3_key prefix) with "iris/validation".
  rewrite !string_app_assoc. split; reflexivity.
Qed.

(** Whatever the bucket, the output path of the training job definition
    is [s3://<bucket>/irisoutput]: the format string puts no slash
    between the prefix and [output], so the path is not under the
    [iris/] prefix that holds the data. *)
Theorem output_path_outside_prefix :
  forall (image role : string) (bucket : option string),
    exists path,
      get_path ["OutputDataConfig"; "S3OutputPath"]
               (training_job_definition image role bucket)
      = Some (PStr path) /\
      path = ("s3://" ++ py_str bucket ++ "/irisoutput")%string /\
      startswith (s3_uri bucket prefix ++ "/") path = false.
Proof.
  intros image role bucket. exists (s3_output_path bucket prefix).
  split; [reflexivity |]. split; [reflexivity |].
  unfold startswith, s3_output_path, s3_uri.
  rewrite !string_app_assoc. rewrite !prefix_app. reflexivity.
Qed.

(** ** A frame without a Species column *)

(** Writing a partition needs its Species column and nothing else of
    it.  Without the column the reordering raises [KeyError], naming
    [Species] as not in the index (or, the frame having no column at
    all, as the one label of which none is in the columns), and [to_csv]
    is not called; with it the reordering cannot fail, whatever the
    other columns are, and [to_csv] is the one call made. *)
Theorem write_csv_needs_species :
  forall (W : Type) (lib : library W) (w : W) (df : DataFrame) (path : string),
    (~ In "Species" (columns df) ->
     result (run lib (write_csv df path) w)
     = inl (match columns df with
            | [] => NoneInColumns ["Species"]
            | _ :: _ => NotInIndex ["Species"]
            end) /\
     log (run lib (write_csv df path) w) = []) /\
    (In "Species" (columns df) ->
     exists reordered,
       select (species_first_labels df) df = inr reordered /\
       map made (log (run lib (write_csv df path) w))
       = [ToCsv reordered path false false]).
Proof.
  intros W lib w df path. unfold write_csv. split.
  - intro H.
    assert (Hothers : filter (fun col => negb (String.eqb col "Species")) (columns df)
                      = columns df).
    { apply forallb_filter_id. apply forallb_forall. intros l Hl.
      destruct (String.eqb l "Species") eqn:E; [| reflexivity].
      apply String.eqb_eq in E. subst l. contradiction. }
    assert (Hsel : select (species_first_labels df) df
                   = inl (match columns df with
                          | [] => NoneInColumns ["Species"]
                          | _ :: _ => NotInIndex ["Species"]
                          end)).
    { unfold select, species_first_labels. rewrite Hothers.
      cbn [app map filter fst snd].
      rewrite (occurrences_absent _ _ 0 H). cbn [none_found].
      rewrite filter_nothing.
      2:{ intros lp Hlp. apply in_map_iff in Hlp. destruct Hlp as (l & <- & Hl).
          apply occurrences_present. exact Hl. }
      cbn [map fst]. destruct (columns df) as [| c cols]; reflexivity. }
    rewrite Hsel. split; reflexivity.
  - intro H.
    destruct (select_found _ df (species_first_labels_in df H)) as [df' Hdf'].
    rewrite Hdf'. exists df'. split; [reflexivity |].
    cbn [lift bind]. unfold to_csv, perform. cbn [bind run].
    destruct (lib _ w) as [[e | x] w']; reflexivity.
Qed.

Lemma write_csv_needs_species_witness :
  result (run (Reference.lib Reference.lab)
              (write_csv {| columns := ["SepalLength"]; rows := [] |} "train.csv")
              0%nat)
  = inl (NotInIndex ["Species"]) /\
  exists reordered,
    select (species_first_labels Reference.two_species) Reference.two_species
    = inr reordered /\
    map made (log (run (Reference.lib Reference.lab)
                       (write_csv Reference.two_species "train.csv") 0%nat))
    = [ToCsv reordered "train.csv" false false].
Proof.
  split.
  - apply (proj1 (write_csv_needs_species nat (Reference.lib Reference.lab) 0%nat
                    {| columns := ["SepalLength"]; rows := [] |} "train.csv")).
    simpl. intros [H | []]. discriminate.
  - apply (proj2 (write_csv_needs_species nat (Reference.lib Reference.lab) 0%nat
                    Reference.two_species "train.csv")).
    simpl. auto 10.
Defined.

(** The split needs the Species column of the data before anything
    else: without it [data["Species"]] raises [KeyError] and
    [train_test_split] is never called; with it the first call made is
    the first split, on the data and its Species column. *)
Theorem split_needs_species :
  forall (W : Type) (lib : library W) (w : W) (data : DataFrame),
    (~ In "Species" (columns data) ->
     result (run lib (split_data data) w) = inl (KeyError "Species") /\
     log (run lib (split_data data) w) = []) /\
    (In "Species" (columns data) ->
     exists later,
       map made (log (run lib (split_data data) w))
       = TrainTestSplit data test_size_1 (Some random_state) (species data)
           :: later).
Proof.
  intros W lib w data. unfold split_data, species, column. split.
  - intro H. rewrite (position_None _ _ H). split; reflexivity.
  - intro H. destruct (position_In _ _ H) as [p ->].
    cbn [lift bind]. unfold train_test_split, perform. cbn [bind run].
    destruct (lib _ w) as [[e | x] w']; cbn [log map made]; eauto.
Qed.

Lemma split_needs_species_witness :
  result (run (Reference.lib Reference.lab)
              (split_data {| columns := ["SepalLength"]; rows := [] |}) 0%nat)
  = inl (KeyError "Species") /\
  exists later,
    map made (log (run (Reference.lib Reference.lab)
                       (split_data Reference.two_species) 0%nat))
    = TrainTestSplit Reference.two_species test_size_1 (Some random_state)
                     (species Reference.two_species) :: later.
Proof.
  split.
  - apply (proj1 (split_needs_species nat (Reference.lib Reference.lab) 0%nat
                    {| columns := ["SepalLength"]; rows := [] |})).
    simpl. intros [H | []]. discriminate.
  - apply (proj2 (split_needs_species nat (Reference.lib Reference.lab) 0%nat
                    Reference.two_species)).
    simpl. auto 10.
Defined.

(** ** The reordering loses nothing *)

Lemma position_own_columns (cols : list string) :
  NoDup cols ->
  map (fun l => position l cols) cols = map Some (seq 0 (List.length cols)).
Proof.
  induction 1 as [| c cols Hc Hnodup IH]; simpl; [reflexivity |].
  rewrite String.eqb_refl. f_equal.
  rewrite <- seq_shift, map_map.
  transitivity (map (fun l => option_map S (position l cols)) cols).
  - apply map_ext_in. intros l Hl.
    destruct (String.eqb c l) eqn:Hcl.
    + apply String.eqb_eq in Hcl. subst l. contradiction.
    + destruct (position l cols); reflexivity.
  - rewrite <- (map_map (fun l => position l cols) (option_map S)), IH, map_map.
    reflexivity.
Qed.

Lemma place_own_columns (cols : list string) :
  NoDup cols ->
  map (fun l => place l cols) cols = seq 0 (List.length cols).
Proof.
  intro H. unfold place.
  rewrite <- (map_map (fun l => position l cols)
                      (fun o => match o with Some p => p | None => 0%nat end)).
  rewrite (position_own_columns cols H), map_map. apply map_id.
Qed.

Lemma cells_by_position (cells : list cell) :
  map (fun p => cell_at p cells) (seq 0 (List.length cells)) = cells.
Proof.
  unfold cell_at. induction cells as [| c cells IH]; simpl; [reflexivity |].
  f_equal. rewrite <- seq_shift, map_map. exact IH.
Qed.

Lemma species_first_labels_perm df :
  NoDup (columns df) -> In "Species" (columns df) ->
  Permutation (columns df) (species_first_labels df).
Proof.
  intros Hnodup Hin. apply NoDup_Permutation; [exact Hnodup | |].
  - unfold species_first_labels. simpl. constructor.
    + intro H. apply filter_In in H. destruct H as [_ H].
      rewrite String.eqb_refl in H. discriminate.
    + apply NoDup_filter. exact Hnodup.
  - intro l. unfold species_first_labels. simpl. rewrite filter_In. split.
    + intro Hl. destruct (String.eqb l "Species") eqn:E.
      * apply String.eqb_eq in E. left. symmetry. exact E.
      * right. split; [exact Hl | reflexivity].
    + intros [<- | [Hl _]]; assumption.
Qed.

(** With distinct column labels, moving the Species column to the front
    loses and repeats nothing: the labels of the frame written are those
    of the partition rearranged, the rows keep their order and their
    index labels, and each full row keeps its cells, rearranged. *)
Theorem reordering_keeps_cells :
  forall (df reordered : DataFrame),
    NoDup (columns df) ->
    select (species_first_labels df) df = inr reordered ->
    Permutation (columns df) (columns reordered) /\
    Forall2 (fun r r' : row =>
               fst r' = fst r /\
               (List.length (snd r) = List.length (columns df) ->
                Permutation (snd r) (snd r')))
            (rows df) (rows reordered).
Proof.
  intros df reordered Hnodup Hsel.
  destruct (select_shape _ _ _ Hsel) as [Hsub _].
  assert (Hin : In "Species" (columns df)).
  { apply Hsub. left. reflexivity. }
  pose proof (species_first_labels_perm df Hnodup Hin) as Hperm.
  rewrite (select_unique _ df Hnodup Hsub) in Hsel. injection Hsel as <-.
  cbn [columns rows]. split; [exact Hperm |].
  induction (rows df) as [| r rest IH]; cbn [map]; constructor; [| exact IH].
  cbn [fst snd]. split; [reflexivity |]. intro Hlen.
  rewrite <- (cells_by_position (snd r)) at 1. rewrite Hlen.
  rewrite <- (place_own_columns _ Hnodup), map_map.
  exact (Permutation_map (fun l => cell_at (place l (columns df)) (snd r)) Hperm).
Qed.

Lemma reordering_keeps_cells_witness :
  exists reordered,
    select (species_first_labels Reference.two_species) Reference.two_species
    = inr reordered /\
    Permutation (columns Reference.two_species) (columns reordered).
Proof.
  eexists. split; [reflexivity |].
  apply (reordering_keeps_cells Reference.two_species).
  - repeat constructor; simpl; intuition discriminate.
  - reflexivity.
Defined.

(** ** The files of a run of the split cell *)

Lemma run_bind_returns {W A B : Type} (lib : library W) (m : script A)
      (f : A -> script B) (w : W) (b : B) :
  result (run lib (bind m f) w) = inr b ->
  exists a,
    result (run lib m w) = inr a /\
    result (run lib (f a) (world_after (run lib m w))) = inr b /\
    log (run lib (bind m f) w)
    = log (run lib m w) ++ log (run lib (f a) (world_after (run lib m w))).
Proof.
  rewrite run_bind. destruct (result (run lib m w)) as [e | a]; cbn.
  - discriminate.
  - intro H. exists a. auto.
Qed.

Lemma written_nothing {W A : Type} (lib : library W) (s : script A) (w : W) :
  always (fun c => file_answer c = fun _ => None) s ->
  written (log (run lib s w)) = [].
Proof.
  intro H. pose proof (always_log _ lib s H w) as Hlog.
  induction Hlog as [| ev rest Hev _ IH]; simpl; [reflexivity |].
  destruct (made ev); try exact IH.
  cbn in Hev. apply (f_equal (fun g => g tt)) in Hev. discriminate.
Qed.

Lemma write_csv_returns {W : Type} (lib : library W) (df : DataFrame)
      (path : string) (w : W) (u : unit) :
  result (run lib (write_csv df path) w) = inr u ->
  exists reordered,
    select (species_first_labels df) df = inr reordered /\
    written (log (run lib (write_csv df path) w))
    = [(path, reordered, false, false)].
Proof.
  unfold write_csv.
  destruct (select (species_first_labels df) df) as [e | reordered]; simpl;
    [discriminate |].
  destruct (lib (ToCsv reordered path false false) w) as [[e | x] w']; simpl;
    [discriminate |].
  intros _. exists reordered. split; reflexivity.
Qed.

(** A run of the split cell that returns has written the three files
    from the partitions it returns. *)
Lemma prepare_data_returns {W : Type} (lib : library W) (w : W)
      (data : DataFrame) (p : partitions) :
  result (run lib (prepare_data data) w) = inr p ->
  result (run lib (split_data data) w) = inr p /\
  exists train val test,
    select (species_first_labels (train_data p)) (train_data p) = inr train /\
    select (species_first_labels (validation_data p)) (validation_data p)
    = inr val /\
    select (species_first_labels (test_data p)) (test_data p) = inr test /\
    written (log (run lib (prepare_data data) w))
    = [("train.csv", train, false, false);
       ("validation.csv", val, false, false);
       ("test.csv", test, false, false)].
Proof.
  unfold prepare_data. intro H.
  apply run_bind_returns in H. destruct H as (p0 & Hsplit & H & Hlog).
  rewrite Hlog, written_app.
  rewrite (written_nothing lib (split_data data) w);
    [| unfold split_data, train_test_split; walk].
  set (w0 := world_after (run lib (split_data data) w)) in *.
  apply run_bind_returns in H. destruct H as (u & Hwrite & H & Hlog2).
  rewrite Hlog2, written_app.
  set (w1 := world_after (run lib (write_partitions p0) w0)) in *.
  apply run_bind_returns in H. destruct H as (u' & Hshow & H & Hlog3).
  rewrite Hlog3, written_app.
  rewrite (written_nothing lib (show_partitions p0) w1);
    [| unfold show_partitions, print, print_frame; walk].
  cbn in H. injection H as <-.
  split; [exact Hsplit |].
  unfold write_partitions in Hwrite |- *.
  apply run_bind_returns in Hwrite. destruct Hwrite as (u1 & H1 & Hwrite & L1).
  rewrite L1, written_app.
  set (v1 := world_after (run lib (write_csv (train_data p0) "train.csv") w0)) in *.
  apply run_bind_returns in Hwrite. destruct Hwrite as (u2 & H2 & H3 & L2).
  rewrite L2, written_app.
  destruct (write_csv_returns lib _ _ _ _ H1) as (train & S1 & W1).
  destruct (write_csv_returns lib _ _ _ _ H2) as (val & S2 & W2).
  destruct (write_csv_returns lib _ _ _ _ H3) as (test & S3 & W3).
  exists train, val, test. rewrite W1, W2, W3. cbn. auto.
Qed.

(** With a library whose [train_test_split] deals out the rows of its
    input, a run of the split cell that returns has written three files
    that share no row of the data and together hold each row once, the
    frames written carrying the index labels of the data. *)
Theorem files_partition_the_data :
  forall (W : Type) (lib : library W) (w : W) (data : DataFrame) (p : partitions),
    stratified_shuffle lib ->
    NoDup (index data) ->
    result (run lib (prepare_data data) w) = inr p ->
    exists train val test,
      written (log (run lib (prepare_data data) w))
      = [("train.csv", train, false, false);
         ("validation.csv", val, false, false);
         ("test.csv", test, false, false)] /\
      Permutation (index data) (index train ++ index val ++ index test) /\
      NoDup (index train ++ index val ++ index test).
Proof.
  intros W lib w data p Hlib Hnodup Hrun.
  destruct (prepare_data_returns lib w data p Hrun)
    as (Hsplit & train & val & test & S1 & S2 & S3 & Hwritten).
  exists train, val, test. split; [exact Hwritten |].
  destruct (select_shape _ _ _ S1) as (_ & I1).
  destruct (select_shape _ _ _ S2) as (_ & I2).
  destruct (select_shape _ _ _ S3) as (_ & I3).
  rewrite I1, I2, I3.
  destruct (split_data_returns lib w data p Hsplit)
    as (w1 & w2 & w3 & H1 & H2 & Hc1 & Hc2).
  destruct (stratified_stage lib _ _ _ _ _ _ _ Hlib Hc1 H1) as (R1 & _).
  destruct (stratified_stage lib _ _ _ _ _ _ _ Hlib Hc2 H2) as (R2 & _).
  assert (Hperm : Permutation (index data)
                    (index (train_data p) ++ index (validation_data p)
                     ++ index (test_data p))).
  { unfold index. rewrite <- !map_app. apply Permutation_map.
    eapply Permutation_trans; [exact R1 |].
    apply Permutation_app_head. exact R2. }
  split; [exact Hperm |].
  eapply Permutation_NoDup; [exact Hperm | exact Hnodup].
Qed.

Lemma files_partition_the_data_witness :
  exists train val test,
    written (log (run (Reference.lib Reference.lab)
                      (prepare_data Reference.two_species) 0%nat))
    = [("train.csv", train, false, false);
       ("validation.csv", val, false, false);
       ("test.csv", test, false, false)] /\
    Permutation (index Reference.two_species)
                (index train ++ index val ++ index test) /\
    NoDup (index train ++ index val ++ index test).
Proof.
  apply (files_partition_the_data nat (Reference.lib Reference.lab) 0%nat
           Reference.two_species
           (Reference.returned
              (run (Reference.lib Reference.lab)
                   (split_data Reference.two_species) 0%nat))).
  - apply reference_stratified_shuffle.
  - apply all_distinct_NoDup. vm_compute. reflexivity.
  - vm_compute. reflexivity.
Defined.

(** With a library that sizes the test side as [ceil(test_size * n)], a
    run of the split cell on 150 rows that returns has written 105
    records to [train.csv], 30 to [validation.csv] and 15 to [test.csv]. *)
Theorem files_record_counts :
  forall (W : Type) (lib : library W) (w : W) (data : DataFrame) (p : partitions),
    sized_by_ceil lib ->
    List.length (rows data) = 150%nat ->
    result (run lib (prepare_data data) w) = inr p ->
    map (fun f : file =>
           let '(path, df, index, header) := f in
           (path, List.length (to_csv_records df index header)))
        (written (log (run lib (prepare_data data) w)))
    = [("train.csv", 105%nat); ("validation.csv", 30%nat); ("test.csv", 15%nat)].
Proof.
  intros W lib w data p Hsize Hlen Hrun.
  destruct (prepare_data_returns lib w data p Hrun)
    as (Hsplit & train & val & test & S1 & S2 & S3 & Hwritten).
  rewrite Hwritten. cbn. rewrite !length_map.
  destruct (split_lengths_150 lib w data p Hsize Hlen Hsplit) as (Nt & Nv & Ne).
  destruct (select_shape _ _ _ S1) as (_ & I1).
  destruct (select_shape _ _ _ S2) as (_ & I2).
  destruct (select_shape _ _ _ S3) as (_ & I3).
  apply (f_equal (@List.length Z)) in I1, I2, I3.
  unfold index in I1, I2, I3. rewrite !length_map in I1, I2, I3.
  repeat f_equal;
    [ exact (eq_trans I1 Nt) | exact (eq_trans I2 Nv) | exact (eq_trans I3 Ne) ].
Qed.

Lemma files_record_counts_witness :
  map (fun f : file =>
         let '(path, df, index, header) := f in
         (path, List.length (to_csv_records df index header)))
      (written (log (run (Reference.lib Reference.lab)
                         (prepare_data Reference.iris) 0%nat)))
  = [("train.csv", 105%nat); ("validation.csv", 30%nat); ("test.csv", 15%nat)].
Proof.
  apply (files_record_counts nat (Reference.lib Reference.lab) 0%nat
           Reference.iris
           (Reference.returned
              (run (Reference.lib Reference.lab)
                   (split_data Reference.iris) 0%nat))).
  - apply reference_sized_by_ceil.
  - vm_compute. reflexivity.
  - vm_compute. reflexivity.
Defined.
